(** * python-nightscout: the [nightscout.Api] client (nightscout/api.py)

    A shallow embedding of the HTTP client of python-nightscout and the
    properties of its request building, response handling and frame
    behaviour.

    Layout:
    - [Py]      the Python values the client handles (str, bytes, dict);
    - [SHA1]    [hashlib.sha1(..).hexdigest()] (FIPS 180-4);
    - [Eff]     the state-and-exception monad the methods run in;
    - the methods of [class Api], one definition per method;
    - [Canned]  a canned server and decoder to run the methods on;
    - the theorems, method by method. *)

From Stdlib Require Import NArith ZArith List Lia.
From Stdlib.Strings Require Import Ascii String Byte.
From stdpp Require Import base option list gmap strings pretty.

Set Default Proof Using "Type".
Set Warnings "-register-all".
Local Open Scope N_scope.

(* ===================================================================== *)
(** ** Python values *)
(* ===================================================================== *)

Module Py.

(** A Python [str] is a sequence of Unicode code points.  Every code point
    of a [str] is below 0x110000; lone surrogates (0xD800..0xDFFF) are
    legal elements of a [str]. *)
Definition str := list N.

(** A Python [bytes] object. *)
Definition bytes := list byte.

(** An ASCII literal of the source text, as a [str]. *)
Definition lit (s : string) : str :=
  map N_of_ascii (list_ascii_of_string s).

Definition is_codepoint (c : N) : bool := c <? 0x110000.
Definition is_surrogate (c : N) : bool := (0xD800 <=? c) && (c <=? 0xDFFF).

(** [is_str s]: [s] is a value of Python's type [str]. *)
Definition is_str (s : str) : bool := forallb is_codepoint s.

Definition byte_of_N (n : N) : byte :=
  match Byte.of_N (n mod 256) with
  | Some b => b
  | None => x00
  end.

(** The code units [str.encode('utf-8')] emits for one code point; [None]
    where CPython raises [UnicodeEncodeError] (surrogates not allowed). *)
Definition utf8_codepoint (c : N) : option bytes :=
  if c <? 0x80 then Some [byte_of_N c]
  else if c <? 0x800 then
    Some [byte_of_N (N.lor 0xC0 (N.shiftr c 6));
          byte_of_N (N.lor 0x80 (N.land c 0x3F))]
  else if is_surrogate c then None
  else if c <? 0x10000 then
    Some [byte_of_N (N.lor 0xE0 (N.shiftr c 12));
          byte_of_N (N.lor 0x80 (N.land (N.shiftr c 6) 0x3F));
          byte_of_N (N.lor 0x80 (N.land c 0x3F))]
  else if c <? 0x110000 then
    Some [byte_of_N (N.lor 0xF0 (N.shiftr c 18));
          byte_of_N (N.lor 0x80 (N.land (N.shiftr c 12) 0x3F));
          byte_of_N (N.lor 0x80 (N.land (N.shiftr c 6) 0x3F));
          byte_of_N (N.lor 0x80 (N.land c 0x3F))]
  else None.

(** [s.encode('utf-8')]. *)
Fixpoint encode_utf8 (s : str) : option bytes :=
  match s with
  | [] => Some []
  | c :: s' =>
      match utf8_codepoint c, encode_utf8 s' with
      | Some b, Some bs => Some (b ++ bs)
      | _, _ => None
      end
  end.

(** [s] is a [str] that [encode('utf-8')] accepts: Unicode scalar values
    only. *)
Definition encodable (s : str) : bool :=
  forallb (fun c => is_codepoint c && negb (is_surrogate c)) s.

(** The values [json.loads] produces and [json.dumps] consumes: [None],
    [bool], [int], [float], [str], [list] and [dict].  A [float] is kept
    as its lexeme; a [dict] keeps its insertion order. *)
Inductive value : Type :=
  | VNone
  | VBool (b : bool)
  | VInt (n : Z)
  | VFloat (lexeme : str)
  | VStr (s : str)
  | VList (l : list value)
  | VDict (kvs : list (str * value)).

(** The contents of a [dict] with [str] keys, in insertion order. *)
Definition dict := list (str * value).

(** [d.get(k)] *)
Fixpoint dict_get (k : str) (d : dict) : option value :=
  match d with
  | [] => None
  | (k', v) :: d' => if decide (k = k') then Some v else dict_get k d'
  end.

(** [str(n)] for an [int]. *)
Definition str_of_int (n : Z) : str := lit (pretty n).

End Py.

(* ===================================================================== *)
(** ** hashlib.sha1 *)
(* ===================================================================== *)

Module SHA1.
Import Py.

Definition w32 : N := 0x100000000.

Definition add32 (a b : N) : N := (a + b) mod w32.

(** Rotate a 32-bit word left by [n] bits, [0 < n < 32]. *)
Definition rotl (n x : N) : N :=
  N.lor (N.shiftl x n mod w32) (N.shiftr x (32 - n)).

Definition not32 (x : N) : N := N.lxor x 0xFFFFFFFF.

(** Padding: a 1 bit, zeros up to 56 mod 64, then the bit length on 64
    bits, big-endian.  The message is handled as byte values. *)
Definition be_bytes (width : nat) (x : N) : list N :=
  map (fun i => N.shiftr x (8 * N.of_nat i) mod 256) (rev (seq 0 width)).

Definition pad (msg : list N) : list N :=
  let len := N.of_nat (length msg) in
  let zeros := N.to_nat ((119 - len mod 64) mod 64) in
  msg ++ [0x80] ++ repeat 0 zeros ++ be_bytes 8 (8 * len).

Definition be_word (b3 b2 b1 b0 : N) : N :=
  N.lor (N.shiftl b3 24) (N.lor (N.shiftl b2 16) (N.lor (N.shiftl b1 8) b0)).

(** Big-endian 32-bit words of a byte sequence (a trailing partial word
    is dropped; [pad] never leaves one). *)
Fixpoint words (bs : list N) : list N :=
  match bs with
  | b3 :: b2 :: b1 :: b0 :: rest => be_word b3 b2 b1 b0 :: words rest
  | _ => []
  end.

(** Blocks of sixteen words. *)
Fixpoint blocks (fuel : nat) (ws : list N) : list (list N) :=
  match fuel with
  | O => []
  | S fuel' =>
      match ws with
      | [] => []
      | _ => take 16 ws :: blocks fuel' (drop 16 ws)
      end
  end.

(** Message schedule, kept newest first: [recent] holds W[t-1], W[t-2], ... *)
Fixpoint schedule (n : nat) (recent : list N) : list N :=
  match n with
  | O => recent
  | S n' =>
      let w := rotl 1 (N.lxor (N.lxor (nth 2 recent 0) (nth 7 recent 0))
                              (N.lxor (nth 13 recent 0) (nth 15 recent 0))) in
      schedule n' (w :: recent)
  end.

Definition expand (block : list N) : list N :=
  rev (schedule 64 (rev block)).

Record state := State { h0 : N; h1 : N; h2 : N; h3 : N; h4 : N }.

Definition init : state :=
  State 0x67452301 0xEFCDAB89 0x98BADCFE 0x10325476 0xC3D2E1F0.

Definition f (t : nat) (b c d : N) : N :=
  if (t <? 20)%nat then N.lor (N.land b c) (N.land (not32 b) d)
  else if (t <? 40)%nat then N.lxor (N.lxor b c) d
  else if (t <? 60)%nat then
    N.lor (N.lor (N.land b c) (N.land b d)) (N.land c d)
  else N.lxor (N.lxor b c) d.

Definition k (t : nat) : N :=
  if (t <? 20)%nat then 0x5A827999
  else if (t <? 40)%nat then 0x6ED9EBA1
  else if (t <? 60)%nat then 0x8F1BBCDC
  else 0xCA62C1D6.

Definition round (t : nat) (w : N) (s : state) : state :=
  let '(State a b c d e) := s in
  let temp := add32 (add32 (add32 (add32 (rotl 5 a) (f t b c d)) e) (k t)) w in
  State temp a (rotl 30 b) c d.

Fixpoint rounds (t : nat) (ws : list N) (s : state) : state :=
  match ws with
  | [] => s
  | w :: ws' => rounds (S t) ws' (round t w s)
  end.

Definition compress (s : state) (block : list N) : state :=
  let '(State a b c d e) := rounds 0 (expand block) s in
  State (add32 (h0 s) a) (add32 (h1 s) b) (add32 (h2 s) c)
        (add32 (h3 s) d) (add32 (h4 s) e).

Definition digest_of_state (s : state) : bytes :=
  map byte_of_N
    (be_bytes 4 (h0 s) ++ be_bytes 4 (h1 s) ++ be_bytes 4 (h2 s)
       ++ be_bytes 4 (h3 s) ++ be_bytes 4 (h4 s)).

(** [hashlib.sha1(data).digest()] *)
Definition digest (data : bytes) : bytes :=
  let ws := words (pad (map Byte.to_N data)) in
  digest_of_state (fold_left compress (blocks (length ws) ws) init).

Definition hex_digit (n : N) : N :=
  if n <? 10 then 48 + n else 87 + n.

Definition hex_of_byte (b : byte) : str :=
  let n := Byte.to_N b in [hex_digit (n / 16); hex_digit (n mod 16)].

(** [bytes.hex()]: two lowercase hexadecimal digits per byte. *)
Definition hex (bs : bytes) : str := concat (map hex_of_byte bs).

(** [hashlib.sha1(data).hexdigest()] *)
Definition hexdigest (data : bytes) : str := hex (digest data).

End SHA1.

Import Py.

(* ===================================================================== *)
(** ** Exceptions, HTTP messages and the effect monad *)
(* ===================================================================== *)

(** The exceptions that reach a caller of the client. *)
Inductive exn : Type :=
  | UnicodeEncodeError              (* str.encode on a lone surrogate *)
  | TransportError (detail : str)   (* raised by requests.get / requests.post *)
  | DecodeError                     (* raised by Response.json() *)
  | TypeError                       (* iteration over a non-iterable *)
  | MappingError (field : str).     (* raised by a record constructor *)

Inductive result (A : Type) : Type :=
  | Ok (a : A)
  | Raise (e : exn).
Arguments Ok {A} a.
Arguments Raise {A} e.

#[global] Instance result_ret : MRet result := fun A a => Ok a.
#[global] Instance result_bind : MBind result := fun A B f r =>
  match r with
  | Ok a => f a
  | Raise e => Raise e
  end.

(** [for x in v]: the items a [for] clause draws from [v]. *)
Definition iterate (v : value) : result (list value) :=
  match v with
  | VList l => Ok l
  | VDict kvs => Ok (map (fun kv => VStr (fst kv)) kvs)
  | VStr s => Ok (map (fun c => VStr [c]) s)
  | _ => Raise TypeError
  end.

Inductive http_method : Type := GET | POST.

(** The arguments of one [requests.get] or [requests.post] call. *)
Record Request : Type := mkRequest {
  req_method : http_method;
  req_url : str;
  req_headers : gmap str str;
  req_params : option dict;
  req_json : option value
}.

(** What the client reads of a [requests.Response]. *)
Record Response : Type := mkResponse {
  status_code : Z;
  content : bytes
}.

(** The calls the client makes into its libraries, in program order. *)
Inductive event : Type :=
  | EvRequest (r : Request)     (* requests.get / requests.post *)
  | EvJson (body : bytes)       (* Response.json() *)
  | EvPrint (line : str).       (* print *)

(** The client object: [self.site_url], [self.api_secret]. *)
Record Api : Type := mkApi {
  site_url : str;
  api_secret : option str
}.

(** The five methods that take [params={}]. *)
Inductive fetch : Type :=
  | Fsgvs | Ftreatments | Fprofiles | Factivities | Fheartrate.

(** Identity of a [dict] object: the default-argument object that [def]
    created for a method, or an object of the caller. *)
Inductive ref : Type :=
  | DefaultOf (f : fetch)
  | Obj (id : positive).

#[global] Instance fetch_eq_dec : EqDecision fetch.
Proof. solve_decision. Defined.
#[global] Instance ref_eq_dec : EqDecision ref.
Proof. solve_decision. Defined.

(** The mutable state a method call can see: the client object, the
    [dict] objects it can reach, and the trace of library calls so far. *)
Record World : Type := mkWorld {
  self : Api;
  dicts : ref -> dict;
  trace : list event
}.

(** The libraries the client is written against.  They read the
    arguments they are given and write to no object of the client or of
    its caller. *)
Class Env : Type := {
  (** The outcome of sending a request, given what happened before. *)
  send : list event -> Request -> result Response;
  (** [Response.json()] on a body. *)
  json_loads : bytes -> result value
}.

(** The record constructors of nightscout/models.py that the client
    calls.  The client only applies them, so they are parameters here. *)
Class Models : Type := {
  Treatment : Type;
  Activity : Type;
  ProfileDefinition : Type;
  datetime : Type;
  Treatment_new_from_json_dict : value -> result Treatment;
  Activity_new_from_json_dict : value -> result Activity;
  ProfileDefinition_new_from_json_dict : value -> result ProfileDefinition;
  (** The timestamp a record reads from its JSON object. *)
  timestamp_of : dict -> option datetime
}.

Module Eff.

(** A computation: runs in a world, raises or returns, leaves a world. *)
Definition M (A : Type) : Type := World -> result A * World.

Definition ret {A} (a : A) : M A := fun w => (Ok a, w).
Definition bind {A B} (m : M A) (k : A -> M B) : M B := fun w =>
  match m w with
  | (Ok a, w') => k a w'
  | (Raise e, w') => (Raise e, w')
  end.
Definition raise {A} (e : exn) : M A := fun w => (Raise e, w).
Definition lift {A} (r : result A) : M A := fun w => (r, w).

(** [self] *)
Definition get_self : M Api := fun w => (Ok (self w), w).
(** The current contents of a [dict] object. *)
Definition deref (r : ref) : M dict := fun w => (Ok (dicts w r), w).
Definition history : M (list event) := fun w => (Ok (trace w), w).
Definition emit (e : event) : M unit := fun w =>
  (Ok tt, mkWorld (self w) (dicts w) (trace w ++ [e])).

End Eff.

#[global] Instance M_ret : MRet Eff.M := @Eff.ret.
#[global] Instance M_bind : MBind Eff.M := fun A B k m => Eff.bind m k.

(* ===================================================================== *)
(** ** Records of nightscout/models.py *)
(* ===================================================================== *)

Section Records.
Context {MD : Models}.

Definition get_opt_str (k : str) (d : dict) : option str :=
  match dict_get k d with
  | Some (VStr s) => Some s
  | _ => None
  end.

(** Modelled from the spec: the SGV record of nightscout/models.py, which
    is missing from the sources.  Spec 3: an SGV is
    [{sgv: integer, timestamp: datetime, direction: optional string,
      device: optional string}]. *)
Record SGV : Type := mkSGV {
  sgv : Z;
  sgv_timestamp : datetime;
  direction : option str;
  device : option str
}.

(** Modelled from the spec: [SGV.new_from_json_dict] of
    nightscout/models.py, which is missing from the sources.  Spec 4.3:
    absent optional keys become absent fields, unknown keys are ignored,
    and a required field ([sgv], the timestamp) that is absent or of the
    wrong type is a [MappingError] naming the field. *)
Definition SGV_new_from_json_dict (x : value) : result SGV :=
  match x with
  | VDict d =>
      match dict_get (lit "sgv") d with
      | Some (VInt n) =>
          match timestamp_of d with
          | Some t =>
              Ok (mkSGV n t (get_opt_str (lit "direction") d)
                        (get_opt_str (lit "device") d))
          | None => Raise (MappingError (lit "timestamp"))
          end
      | _ => Raise (MappingError (lit "sgv"))
      end
  | _ => Raise (MappingError (lit "sgv"))
  end.

(** Modelled from the spec: the ProfileDefinitionSet of
    nightscout/models.py, which is missing from the sources.  Spec 3: an
    ordered sequence of ProfileDefinition, one per JSON array element. *)
Record ProfileDefinitionSet : Type := mkProfileDefinitionSet {
  profiles : list ProfileDefinition
}.

(** Modelled from the spec: [ProfileDefinitionSet.new_from_json_array] of
    nightscout/models.py, which is missing from the sources.  Spec 4.3:
    it takes a JSON array and produces one ProfileDefinition per element,
    preserving array order. *)
Definition ProfileDefinitionSet_new_from_json_array (v : value)
  : result ProfileDefinitionSet :=
  match v with
  | VList l =>
      ps ← mapM ProfileDefinition_new_from_json_dict l;
      Ok (mkProfileDefinitionSet ps)
  | _ => Raise (MappingError (lit "profiles"))
  end.

End Records.

(* ===================================================================== *)
(** ** class Api *)
(* ===================================================================== *)

Section ApiMethods.
Context {E : Env} {MD : Models}.
Import Eff.

(** [requests.get(url, headers=headers, params=params)] *)
Definition requests_get (url : str) (headers : gmap str str) (params : dict)
  : M Response :=
  let req := mkRequest GET url headers (Some params) None in
  h ← history;
  emit (EvRequest req);;
  lift (send h req).

(** [requests.post(url, json=json, headers=headers)] *)
Definition requests_post (url : str) (json : value) (headers : gmap str str)
  : M Response :=
  let req := mkRequest POST url headers None (Some json) in
  h ← history;
  emit (EvRequest req);;
  lift (send h req).

(** [r.json()] *)
Definition json (r : Response) : M value :=
  emit (EvJson (content r));;
  lift (json_loads (content r)).

(** [print(line)] *)
Definition print (line : str) : M unit := emit (EvPrint line).

(** [[f(x) for x in v]] *)
Definition comprehension {A} (f : value -> result A) (v : value) : M (list A) :=
  lift (xs ← iterate v; mapM f xs).

(** The value a [params={}] parameter is bound to. *)
Definition bound (f : fetch) (params : option ref) : ref :=
  match params with
  | Some r => r
  | None => DefaultOf f
  end.

(** [if self.api_secret:] holds for a [str] that is not empty; [None] and
    [''] are false. *)
Definition request_headers : M (gmap str str) :=
  self ← get_self;
  let headers : gmap str str :=
    <[lit "Accept" := lit "application/json"]>
      (<[lit "Content-Type" := lit "application/json"]> ∅) in
  match api_secret self with
  | Some ((_ :: _) as secret) =>
      match encode_utf8 secret with
      | Some b => mret (<[lit "api-secret" := SHA1.hexdigest b]> headers)
      | None => raise UnicodeEncodeError
      end
  | _ => mret headers
  end.

Definition get_sgvs (params : option ref) : M (list SGV) :=
  self ← get_self;
  headers ← request_headers;
  p ← deref (bound Fsgvs params);
  r ← requests_get (site_url self ++ lit "/api/v1/entries/sgv.json") headers p;
  v ← json r;
  comprehension SGV_new_from_json_dict v.

Definition get_treatments (params : option ref) : M (list Treatment) :=
  self ← get_self;
  headers ← request_headers;
  p ← deref (bound Ftreatments params);
  r ← requests_get (site_url self ++ lit "/api/v1/treatments.json") headers p;
  if (0 <? length (content r))%nat then
    v ← json r;
    comprehension Treatment_new_from_json_dict v
  else mret [].

Definition get_profiles (params : option ref) : M ProfileDefinitionSet :=
  self ← get_self;
  headers ← request_headers;
  p ← deref (bound Fprofiles params);
  r ← requests_get (site_url self ++ lit "/api/v1/profile.json") headers p;
  v ← json r;
  lift (ProfileDefinitionSet_new_from_json_array v).

Definition get_activities (params : option ref) : M (list Activity) :=
  self ← get_self;
  headers ← request_headers;
  p ← deref (bound Factivities params);
  r ← requests_get (site_url self ++ lit "/api/v1/activity.json") headers p;
  if (0 <? length (content r))%nat then
    v ← json r;
    comprehension Activity_new_from_json_dict v
  else mret [].

Definition create_activity_data : value :=
  VList [
    VDict [
      (lit "timestamp", VStr (lit "2023-10-18T08:30:00.000Z"));
      (lit "created_at", VStr (lit "2023-10-18T08:30:00.000Z"));
      (lit "activity_type", VStr (lit "Running"))
    ];
    VDict [
      (lit "timestamp", VStr (lit "2023-10-18T12:00:00.000Z"));
      (lit "created_at", VStr (lit "2023-10-18T12:00:00.000Z"));
      (lit "type", VStr (lit "Cycling"));
      (lit "duration", VInt 100);
      (lit "eventType", VStr (lit "Cycling"))
    ]
  ].

Definition create_activity : M value :=
  self ← get_self;
  let activity_data := create_activity_data in
  let url := site_url self ++ lit "/api/v1/activity.json" in
  headers ← request_headers;
  response ← requests_post url activity_data headers;
  if (status_code response =? 201)%Z then
    json response
  else
    print (lit "Error creating activity. Status code: "
             ++ str_of_int (status_code response));;
    mret VNone.

Definition create_heartrate_data : value :=
  VList [
    VDict [
      (lit "timestamp", VStr (lit "2023-10-18T08:30:00.000Z"));
      (lit "created_at", VStr (lit "2023-10-18T08:30:00.000Z"));
      (lit "activity_type", VStr (lit "Heartrate"));
      (lit "value", VInt 70)
    ];
    VDict [
      (lit "timestamp", VStr (lit "2023-10-18T12:00:00.000Z"));
      (lit "created_at", VStr (lit "2023-10-18T12:00:00.000Z"));
      (lit "eventType", VStr (lit "Heartrate"));
      (lit "value", VInt 80)
    ]
  ].

Definition create_heartrate : M value :=
  self ← get_self;
  let activity_data := create_heartrate_data in
  let url := site_url self ++ lit "/api/v1/activity.json" in
  headers ← request_headers;
  response ← requests_post url activity_data headers;
  if (status_code response =? 201)%Z then
    json response
  else
    print (lit "Error creating activity. Status code: "
             ++ str_of_int (status_code response));;
    mret VNone.

Definition get_heartrate (params : option ref) : M (list Treatment) :=
  self ← get_self;
  headers ← request_headers;
  p ← deref (bound Fheartrate params);
  r ← requests_get (site_url self ++ lit "/api/v1/activity.json") headers p;
  if (0 <? length (content r))%nat then
    v ← json r;
    comprehension Treatment_new_from_json_dict v
  else mret [].

End ApiMethods.

(** [Api(site_url, api_secret=None)]: the constructor stores its two
    arguments; an omitted [api_secret] is [None]. *)
Definition __init__ (site_url : str) (api_secret : option str) : Api :=
  mkApi site_url api_secret.

(* ===================================================================== *)
(** ** Vocabulary of the statements *)
(* ===================================================================== *)

(** ['0'..'9'] or ['a'..'f']. *)
Definition is_lower_hex (c : N) : bool :=
  ((48 <=? c) && (c <=? 57)) || ((97 <=? c) && (c <=? 102)).

(** The world after the library calls [es] have been made in [w]. *)
Definition logged (w : World) (es : list event) : World :=
  mkWorld (self w) (dicts w) (trace w ++ es).

(** A GET of [site_url + path] carrying the contents of the [dict] [r]. *)
Definition get_request (w : World) (path : str) (h : gmap str str) (r : ref)
  : Request :=
  mkRequest GET (site_url (self w) ++ path) h (Some (dicts w r)) None.

(** A POST of [data] to [site_url + '/api/v1/activity.json']. *)
Definition post_request (w : World) (data : value) (h : gmap str str)
  : Request :=
  mkRequest POST (site_url (self w) ++ lit "/api/v1/activity.json") h None
            (Some data).

(** The requests among the library calls of a trace. *)
Definition requests_of (es : list event) : list Request :=
  omap (fun e => match e with EvRequest r => Some r | _ => None end) es.

(** The bodies handed to the JSON decoder among the calls of a trace. *)
Definition decoded_of (es : list event) : list bytes :=
  omap (fun e => match e with EvJson b => Some b | _ => None end) es.

Section Vocabulary.
Context {E : Env} {MD : Models}.

(** A JSON object the SGV constructor accepts: an integer [sgv] and a
    readable timestamp. *)
Definition well_formed_SGV (x : value) : bool :=
  match x with
  | VDict d =>
      match dict_get (lit "sgv") d, timestamp_of d with
      | Some (VInt _), Some _ => true
      | _, _ => false
      end
  | _ => false
  end.

(** The [sgv] member of a JSON object. *)
Definition sgv_field (x : value) : option value :=
  match x with
  | VDict d => dict_get (lit "sgv") d
  | _ => None
  end.

(** One call of a method of the client by its user. *)
Inductive call : Type :=
  | CallHeaders
  | CallFetch (f : fetch) (params : option ref)
  | CallCreateActivity
  | CallCreateHeartrate.

(** What a call hands back to its caller. *)
Inductive answer : Type :=
  | Headers (r : result (gmap str str))
  | Sgvs (r : result (list SGV))
  | Treatments (r : result (list Treatment))
  | Profiles (r : result ProfileDefinitionSet)
  | Activities (r : result (list Activity))
  | Created (r : result value).

Definition answered {A} (tag : result A -> answer) (o : result A * World)
  : answer * World := (tag (fst o), snd o).

Definition perform (c : call) (w : World) : answer * World :=
  match c with
  | CallHeaders => answered Headers (request_headers w)
  | CallFetch Fsgvs params => answered Sgvs (get_sgvs params w)
  | CallFetch Ftreatments params => answered Treatments (get_treatments params w)
  | CallFetch Fprofiles params => answered Profiles (get_profiles params w)
  | CallFetch Factivities params => answered Activities (get_activities params w)
  | CallFetch Fheartrate params => answered Treatments (get_heartrate params w)
  | CallCreateActivity => answered Created (create_activity w)
  | CallCreateHeartrate => answered Created (create_heartrate w)
  end.

(** The world when the class body has run and a client was constructed:
    each default parameter is the empty [dict] its [def] created. *)
Definition initial (a : Api) (objs : positive -> dict) : World :=
  mkWorld a
    (fun r => match r with DefaultOf _ => [] | Obj id => objs id end) [].

(** The worlds a program can be in between calls: it calls methods of the
    client and builds or updates [dict] objects of its own. *)
Inductive reachable (a : Api) : World -> Prop :=
  | reach_initial objs : reachable a (initial a objs)
  | reach_call c w : reachable a w -> reachable a (snd (perform c w))
  | reach_caller w id d :
      reachable a w ->
      reachable a
        (mkWorld (self w)
           (fun r => if decide (r = Obj id) then d else dicts w r) (trace w)).

End Vocabulary.

Section Programs.
Context {E : Env} {MD : Models}.

(** The exception a call raised, if it raised. *)
Definition raised (a : answer) : option exn :=
  match a with
  | Headers (Raise e) | Sgvs (Raise e) | Treatments (Raise e)
  | Profiles (Raise e) | Activities (Raise e) | Created (Raise e) => Some e
  | _ => None
  end.

(** The library calls that a call adds to the trace. *)
Definition calls_of (c : call) (w : World) : list event :=
  drop (length (trace w)) (trace (snd (perform c w))).

(** The lines printed among the library calls of a trace. *)
Definition printed_of (es : list event) : list str :=
  omap (fun e => match e with EvPrint l => Some l | _ => None end) es.

(** The world after a program has made the calls [cs] one after the
    other, whether they raised or returned. *)
Definition perform_all (cs : list call) (w : World) : World :=
  foldl (fun w c => snd (perform c w)) w cs.

(** The paths of the remote API that the client knows. *)
Definition api_paths : list str :=
  [lit "/api/v1/entries/sgv.json"; lit "/api/v1/treatments.json";
   lit "/api/v1/profile.json"; lit "/api/v1/activity.json"].

(** A request is either a GET with a query and no body or a POST with a
    JSON body and no query. *)
Definition well_shaped (r : Request) : bool :=
  match req_method r, req_params r, req_json r with
  | GET, Some _, None => true
  | POST, None, Some _ => true
  | _, _, _ => false
  end.

(** [None], a [bool], an [int] or a [float]: a decoded value that a [for]
    clause cannot iterate over. *)
Definition is_scalar (v : value) : bool :=
  match v with
  | VNone | VBool _ | VInt _ | VFloat _ => true
  | _ => false
  end.

(** A request of the client of [w]: it carries the headers that
    [request_headers] gives in [w], goes to one of the four paths under
    [site_url] and is well shaped. *)
Definition clients (w : World) (r : Request) : Prop :=
  fst (request_headers w) = Ok (req_headers r)
  /\ well_shaped r = true
  /\ exists path, path ∈ api_paths /\ req_url r = site_url (self w) ++ path.

(** The three steps of a call, read off the methods and proved to be what
    [perform] does in [perform_steps]: the request a call sends once the
    headers are built, the answer that carries an exception, and what the
    call does with a response. *)
Definition request_of (c : call) (w : World) (h : gmap str str)
  : option Request :=
  match c with
  | CallHeaders => None
  | CallFetch Fsgvs p =>
      Some (get_request w (lit "/api/v1/entries/sgv.json") h (bound Fsgvs p))
  | CallFetch Ftreatments p =>
      Some (get_request w (lit "/api/v1/treatments.json") h
              (bound Ftreatments p))
  | CallFetch Fprofiles p =>
      Some (get_request w (lit "/api/v1/profile.json") h (bound Fprofiles p))
  | CallFetch Factivities p =>
      Some (get_request w (lit "/api/v1/activity.json") h
              (bound Factivities p))
  | CallFetch Fheartrate p =>
      Some (get_request w (lit "/api/v1/activity.json") h
              (bound Fheartrate p))
  | CallCreateActivity => Some (post_request w create_activity_data h)
  | CallCreateHeartrate => Some (post_request w create_heartrate_data h)
  end.

Definition failed (c : call) (e : exn) : answer :=
  match c with
  | CallHeaders => Headers (Raise e)
  | CallFetch Fsgvs _ => Sgvs (Raise e)
  | CallFetch Ftreatments _ | CallFetch Fheartrate _ => Treatments (Raise e)
  | CallFetch Fprofiles _ => Profiles (Raise e)
  | CallFetch Factivities _ => Activities (Raise e)
  | CallCreateActivity | CallCreateHeartrate => Created (Raise e)
  end.

Definition decoded {A} (f : value -> result A) (r : Response)
  : result (list A) :=
  v ← json_loads (content r); xs ← iterate v; mapM f xs.

Definition guarded {A} (tag : result (list A) -> answer)
    (f : value -> result A) (r : Response) : answer * list event :=
  if (0 <? length (content r))%nat
  then (tag (decoded f r), [EvJson (content r)])
  else (tag (Ok []), []).

Definition created (r : Response) : answer * list event :=
  if (status_code r =? 201)%Z
  then (Created (json_loads (content r)), [EvJson (content r)])
  else (Created (Ok VNone),
        [EvPrint (lit "Error creating activity. Status code: "
                    ++ str_of_int (status_code r))]).

Definition respond (c : call) (h : gmap str str) (r : Response)
  : answer * list event :=
  match c with
  | CallHeaders => (Headers (Ok h), [])
  | CallFetch Fsgvs _ =>
      (Sgvs (decoded SGV_new_from_json_dict r), [EvJson (content r)])
  | CallFetch Ftreatments _ =>
      guarded Treatments Treatment_new_from_json_dict r
  | CallFetch Fprofiles _ =>
      (Profiles (v ← json_loads (content r);
                 ProfileDefinitionSet_new_from_json_array v),
       [EvJson (content r)])
  | CallFetch Factivities _ =>
      guarded Activities Activity_new_from_json_dict r
  | CallFetch Fheartrate _ =>
      guarded Treatments Treatment_new_from_json_dict r
  | CallCreateActivity | CallCreateHeartrate => created r
  end.

Definition steps (c : call) (w : World) : answer * World :=
  match fst (request_headers w) with
  | Raise e => (failed c e, w)
  | Ok h =>
      match request_of c w h with
      | None => (Headers (Ok h), w)
      | Some req =>
          match send (trace w) req with
          | Raise e => (failed c e, logged w [EvRequest req])
          | Ok r =>
              (fst (respond c h r),
               logged w (EvRequest req :: snd (respond c h r)))
          end
      end
  end.

End Programs.

(* ===================================================================== *)
(** ** A canned server, for running the methods on concrete inputs *)
(* ===================================================================== *)

Module Canned.

(** A decoder for a fragment of JSON: white space, [null], [true],
    [false], integers, strings of printable ASCII without escapes, arrays
    and objects.  Everything else, the empty text included, is refused. *)
Definition is_ws (c : N) : bool :=
  (c =? 32) || (c =? 9) || (c =? 10) || (c =? 13).
Definition is_digit (c : N) : bool := (48 <=? c) && (c <=? 57).

Fixpoint skip_ws (s : list N) : list N :=
  match s with
  | c :: s' => if is_ws c then skip_ws s' else s
  | [] => []
  end.

Fixpoint digits (acc : Z) (s : list N) : Z * list N :=
  match s with
  | c :: s' =>
      if is_digit c then digits (10 * acc + Z.of_N (c - 48))%Z s'
      else (acc, s)
  | [] => (acc, [])
  end.

Fixpoint chars (acc : str) (s : list N) : option (str * list N) :=
  match s with
  | c :: s' =>
      if c =? 34 then Some (rev acc, s')
      else if (c =? 92) || (c <? 32) || (127 <? c) then None
      else chars (c :: acc) s'
  | [] => None
  end.

Definition expect (c : N) (s : list N) : option (list N) :=
  match skip_ws s with
  | c' :: s' => if c' =? c then Some s' else None
  | [] => None
  end.

Fixpoint parse (fuel : nat) (s : list N) : option (value * list N) :=
  match fuel with
  | O => None
  | S fuel' =>
      match skip_ws s with
      | 110 :: 117 :: 108 :: 108 :: s' => Some (VNone, s')
      | 116 :: 114 :: 117 :: 101 :: s' => Some (VBool true, s')
      | 102 :: 97 :: 108 :: 115 :: 101 :: s' => Some (VBool false, s')
      | 34 :: s' => '(x, s'') ← chars [] s'; Some (VStr x, s'')
      | 91 :: s' =>
          match expect 93 s' with
          | Some s'' => Some (VList [], s'')
          | None => '(xs, s'') ← elements fuel' s'; Some (VList xs, s'')
          end
      | 123 :: s' =>
          match expect 125 s' with
          | Some s'' => Some (VDict [], s'')
          | None => '(kvs, s'') ← members fuel' s'; Some (VDict kvs, s'')
          end
      | 45 :: c :: s' =>
          if is_digit c then
            let '(n, s'') := digits 0 (c :: s') in Some (VInt (- n), s'')
          else None
      | c :: s' =>
          if is_digit c then
            let '(n, s'') := digits 0 (c :: s') in Some (VInt n, s'')
          else None
      | [] => None
      end
  end
with elements (fuel : nat) (s : list N) : option (list value * list N) :=
  match fuel with
  | O => None
  | S fuel' =>
      '(x, s1) ← parse fuel' s;
      match expect 93 s1 with
      | Some s2 => Some ([x], s2)
      | None =>
          s2 ← expect 44 s1;
          '(xs, s3) ← elements fuel' s2;
          Some (x :: xs, s3)
      end
  end
with members (fuel : nat) (s : list N) : option (dict * list N) :=
  match fuel with
  | O => None
  | S fuel' =>
      s0 ← expect 34 s;
      '(k, s1) ← chars [] s0;
      s2 ← expect 58 s1;
      '(x, s3) ← parse fuel' s2;
      match expect 125 s3 with
      | Some s4 => Some ([(k, x)], s4)
      | None =>
          s4 ← expect 44 s3;
          '(kvs, s5) ← members fuel' s4;
          Some ((k, x) :: kvs, s5)
      end
  end.

Definition loads (body : bytes) : result value :=
  let s := map Byte.to_N body in
  match parse (S (length s)) s with
  | Some (v, rest) =>
      match skip_ws rest with
      | [] => Ok v
      | _ => Raise DecodeError
      end
  | None => Raise DecodeError
  end.

(** The bytes of an ASCII text; an apostrophe in the text stands for the
    double quote of JSON. *)
Definition text (s : string) : bytes :=
  map (fun b => match b with x27 => x22 | _ => b end) (list_byte_of_string s).

(** A server that answers every request with one response. *)
Definition server (status : Z) (body : string) : Env :=
  {| send := fun _ _ => Ok (mkResponse status (text body));
     json_loads := loads |}.

(** A network that is down. *)
Definition offline : Env :=
  {| send := fun _ _ => Raise (TransportError (lit "connection refused"));
     json_loads := loads |}.

(** Records that keep the JSON object they were built from. *)
Definition raw (v : value) : result dict :=
  match v with
  | VDict d => Ok d
  | _ => Raise (MappingError (lit "object"))
  end.

Definition models : Models :=
  {| Treatment := dict;
     Activity := dict;
     ProfileDefinition := dict;
     datetime := str;
     Treatment_new_from_json_dict := raw;
     Activity_new_from_json_dict := raw;
     ProfileDefinition_new_from_json_dict := raw;
     timestamp_of := get_opt_str (lit "dateString") |}.

Definition client (secret : option str) : Api :=
  mkApi (lit "https://ns.example") secret.

(** A world in which object 1 of the caller is the query
    [{'count': 0, 'find[dateString][$gte]': '2017-03-07T01:10:26.000Z'}]
    and every other [dict] is empty. *)
Definition query : dict :=
  [(lit "count", VInt 0);
   (lit "find[dateString][$gte]", VStr (lit "2017-03-07T01:10:26.000Z"))].

Definition world (secret : option str) : World :=
  initial (client secret)
    (fun id => if decide (id = 1%positive) then query else []).

(** Two readings, as the entries endpoint serves them. *)
Definition readings : string :=
  "[{'sgv': 120, 'dateString': '2017-03-07T01:10:26.000Z', 'direction': 'Flat'},
    {'dateString': '2017-03-07T01:15:26.000Z', 'sgv': 118, 'noise': 1}]".

End Canned.

(* ===================================================================== *)
(** ** How the methods run *)
(* ===================================================================== *)

Example sha1_empty :
  SHA1.hexdigest [] = lit "da39a3ee5e6b4b0d3255bfef95601890afd80709".
Proof. vm_compute. reflexivity. Qed.

Example sha1_abc :
  SHA1.hexdigest <$> encode_utf8 (lit "abc")
  = Some (lit "a9993e364706816aba3e25717850c26c9cd0d89d").
Proof. vm_compute. reflexivity. Qed.

Example sha1_two_blocks :
  SHA1.hexdigest
    <$> encode_utf8
          (lit "abcdbcdecdefdefgefghfghighijhijkijkljklmklmnlmnomnopnopq")
  = Some (lit "84983e441c3bd26ebaae4aa1f95129e5e54670f1").
Proof. vm_compute. reflexivity. Qed.

(** Messages of 55, 56 and 64 bytes: the padding fits the block, spills
    into a second one, follows a full block. *)
Example sha1_padding :
  SHA1.hexdigest (repeat x61 55) = lit "c1c8bbdc22796e28c0e15163d20899b65621d65a"
  /\ SHA1.hexdigest (repeat x61 56)
     = lit "c2db330f6083854c99d4b5bfb6e8f29f201be699"
  /\ SHA1.hexdigest (repeat x61 64)
     = lit "0098ba824b5c16427bd7a1122a5a442a25ec644d".
Proof. vm_compute. repeat split; reflexivity. Qed.

(** U+00E9, U+20AC and U+1F600 take two, three and four bytes. *)
Example encode_utf8_widths :
  encode_utf8 [0xE9; 0x20AC; 0x1F600]
  = Some [xc3; xa9; xe2; x82; xac; xf0; x9f; x98; x80].
Proof. reflexivity. Qed.

Lemma utf8_codepoint_scalar c :
  is_codepoint c && negb (is_surrogate c) = true -> is_Some (utf8_codepoint c).
Proof.
  unfold utf8_codepoint, is_codepoint.
  intros [Hc Hs%negb_true_iff]%andb_true_iff. rewrite Hs, Hc.
  repeat case_match; eauto.
Qed.

Lemma encode_utf8_total s : encodable s = true -> is_Some (encode_utf8 s).
Proof.
  induction s as [|c s IH]; simpl; [eauto|].
  intros [Hc Hs]%andb_true_iff.
  destruct (utf8_codepoint_scalar c Hc) as [b ->].
  destruct (IH Hs) as [bs ->]. eauto.
Qed.

Lemma hex_digit_lower n : n < 16 -> is_lower_hex (SHA1.hex_digit n) = true.
Proof.
  intros Hn. unfold SHA1.hex_digit, is_lower_hex.
  destruct (N.ltb_spec n 10).
  - apply orb_true_iff. left. apply andb_true_iff.
    split; apply N.leb_le; lia.
  - apply orb_true_iff. right. apply andb_true_iff.
    split; apply N.leb_le; lia.
Qed.

Lemma hex_lower bs : forallb is_lower_hex (SHA1.hex bs) = true.
Proof.
  unfold SHA1.hex. induction bs as [|b bs IH]; [done|].
  simpl. rewrite IH.
  pose proof (Byte.to_N_bounded b) as Hb.
  rewrite !hex_digit_lower; [done| |].
  - apply N.mod_lt. lia.
  - apply N.Div0.div_lt_upper_bound. lia.
Qed.

Lemma length_hex bs : length (SHA1.hex bs) = (2 * length bs)%nat.
Proof.
  unfold SHA1.hex. induction bs as [|b bs IH]; [done|].
  simpl. rewrite IH. lia.
Qed.

Lemma length_digest data : length (SHA1.digest data) = 20%nat.
Proof. unfold SHA1.digest, SHA1.digest_of_state. by rewrite length_map. Qed.

(** A hexdigest is forty lowercase hexadecimal digits. *)
Lemma hexdigest_shape data :
  length (SHA1.hexdigest data) = 40%nat
  /\ forallb is_lower_hex (SHA1.hexdigest data) = true.
Proof.
  unfold SHA1.hexdigest. split.
  - by rewrite length_hex, length_digest.
  - apply hex_lower.
Qed.

(** Unfolds the monad down to functions on worlds. *)
Ltac unfold_monad :=
  unfold mbind, M_bind, mret, M_ret, Eff.bind, Eff.ret, Eff.lift, Eff.raise,
    Eff.get_self, Eff.deref, Eff.history, Eff.emit in *.
Ltac run := unfold_monad; simpl in *.

Lemma logged_logged w es es' : logged (logged w es) es' = logged w (es ++ es').
Proof. unfold logged. simpl. by rewrite <- app_assoc. Qed.

Lemma logged_nil w : logged w [] = w.
Proof. destruct w. unfold logged. simpl. by rewrite app_nil_r. Qed.

Section Runs.
Context {E : Env} {MD : Models}.

(** Building the headers reads [self] and touches nothing. *)
Lemma request_headers_frame w : snd (request_headers w) = w.
Proof.
  unfold request_headers. run. by repeat case_match.
Qed.

(** The three outcomes of [request_headers]. *)
Lemma request_headers_cases w :
  let base : gmap str str :=
    <[lit "Accept" := lit "application/json"]>
      (<[lit "Content-Type" := lit "application/json"]> ∅) in
  request_headers w
  = (match api_secret (self w) with
     | Some ((_ :: _) as secret) =>
         match encode_utf8 secret with
         | Some b => Ok (<[lit "api-secret" := SHA1.hexdigest b]> base)
         | None => Raise UnicodeEncodeError
         end
     | _ => Ok base
     end, w).
Proof.
  unfold request_headers. unfold_monad. cbv beta zeta.
  repeat case_match; reflexivity.
Qed.

Lemma request_headers_run w : request_headers w = (fst (request_headers w), w).
Proof.
  rewrite <- (request_headers_frame w) at 3. by destruct (request_headers w).
Qed.

Lemma requests_get_run url h p w :
  requests_get url h p w
  = (send (trace w) (mkRequest GET url h (Some p) None),
     logged w [EvRequest (mkRequest GET url h (Some p) None)]).
Proof. reflexivity. Qed.

Lemma requests_post_run url data h w :
  requests_post url data h w
  = (send (trace w) (mkRequest POST url h None (Some data)),
     logged w [EvRequest (mkRequest POST url h None (Some data))]).
Proof. reflexivity. Qed.

Lemma json_run r w :
  json r w = (json_loads (content r), logged w [EvJson (content r)]).
Proof. reflexivity. Qed.

(** The run of a method that takes [params={}], up to the response. *)
Lemma fetch_run {A} (k : Response -> Eff.M A) path r w :
  (self ← Eff.get_self;
   headers ← request_headers;
   p ← Eff.deref r;
   resp ← requests_get (site_url self ++ path) headers p;
   k resp) w
  = match fst (request_headers w) with
    | Raise e => (Raise e, w)
    | Ok h =>
        let req := get_request w path h r in
        match send (trace w) req with
        | Raise e => (Raise e, logged w [EvRequest req])
        | Ok resp => k resp (logged w [EvRequest req])
        end
    end.
Proof.
  run. rewrite (request_headers_run w). simpl.
  destruct (fst (request_headers w)) as [h|e]; [|done].
  unfold requests_get, get_request. run.
  by destruct (send _ _).
Qed.

(** The run of a method that posts, up to the response. *)
Lemma create_run {A} (k : Response -> Eff.M A) data w :
  (self ← Eff.get_self;
   headers ← request_headers;
   resp ← requests_post (site_url self ++ lit "/api/v1/activity.json")
            data headers;
   k resp) w
  = match fst (request_headers w) with
    | Raise e => (Raise e, w)
    | Ok h =>
        let req := post_request w data h in
        match send (trace w) req with
        | Raise e => (Raise e, logged w [EvRequest req])
        | Ok resp => k resp (logged w [EvRequest req])
        end
    end.
Proof.
  run. rewrite (request_headers_run w). simpl.
  destruct (fst (request_headers w)) as [h|e]; [|done].
  unfold requests_post, post_request. run.
  by destruct (send _ _).
Qed.

(** The body of the three methods that test [len(r.content) > 0]. *)
Lemma guarded_body_run {A} (f : value -> result A) r w :
  (if (0 <? length (content r))%nat
   then v ← json r; comprehension f v
   else mret []) w
  = if (0 <? length (content r))%nat
    then (v ← json_loads (content r); xs ← iterate v; mapM f xs,
          logged w [EvJson (content r)])
    else (Ok [], w).
Proof.
  destruct (0 <? length (content r))%nat; [|done].
  run. unfold json, comprehension. run.
  by destruct (json_loads (content r)).
Qed.

End Runs.

(* ===================================================================== *)
(** ** request_headers *)
(* ===================================================================== *)

Section Headers.

Lemma header_keys_distinct :
  lit "Accept" <> lit "Content-Type"
  /\ lit "api-secret" <> lit "Accept"
  /\ lit "api-secret" <> lit "Content-Type".
Proof. repeat split; discriminate. Qed.

(** The two headers every request carries. *)
Lemma base_headers_lookup (h : gmap str str) :
  h = <[lit "Accept" := lit "application/json"]>
        (<[lit "Content-Type" := lit "application/json"]> ∅) ->
  h !! lit "Content-Type" = Some (lit "application/json")
  /\ h !! lit "Accept" = Some (lit "application/json")
  /\ h !! lit "api-secret" = None
  /\ dom h =@{gset str} {[lit "Content-Type"; lit "Accept"]}
  /\ forall k v, h !! k = Some v -> v = lit "application/json".
Proof.
  destruct header_keys_distinct as (Hac & Hsa & Hsc). intros ->.
  split_and!.
  - rewrite lookup_insert_ne by done. apply lookup_insert_eq.
  - apply lookup_insert_eq.
  - by rewrite !lookup_insert_ne.
  - rewrite !dom_insert_L. set_solver.
  - intros k v. rewrite !lookup_insert. repeat case_decide; naive_solver.
Qed.

(** C1 (as amended).  For every client state whose secret, if there is
    one, can be encoded in UTF-8 (no lone surrogate), [request_headers]
    returns a mapping and leaves the state as it was.  The mapping always
    holds [Content-Type: application/json] and [Accept: application/json].
    With a non-empty secret it holds, besides these two, exactly the
    header [api-secret], whose value is the hexdigest of the SHA-1 of the
    UTF-8 encoding of the secret: forty lowercase hexadecimal digits.
    With no secret or the empty secret the key [api-secret] is not in the
    mapping, which then holds the two fixed headers only, and no header
    value is the raw secret.  With any secret, the raw secret is the
    value of a header in two cases only: it is the text
    [application/json], the value of the two fixed headers, or it is the
    value of [api-secret] because it is itself the hexdigest of its own
    UTF-8 encoding. *)
Theorem request_headers_api_secret (w : World) :
  (forall s, api_secret (self w) = Some s -> encodable s = true) ->
  exists h : gmap str str,
    request_headers w = (Ok h, w)
    /\ h !! lit "Content-Type" = Some (lit "application/json")
    /\ h !! lit "Accept" = Some (lit "application/json")
    /\ (forall s, api_secret (self w) = Some s -> s <> [] ->
        exists b,
          encode_utf8 s = Some b
          /\ h !! lit "api-secret" = Some (SHA1.hexdigest b)
          /\ length (SHA1.hexdigest b) = 40%nat
          /\ forallb is_lower_hex (SHA1.hexdigest b) = true
          /\ dom h =@{gset str}
               {[lit "Content-Type"; lit "Accept"; lit "api-secret"]})
    /\ (api_secret (self w) = None \/ api_secret (self w) = Some [] ->
        h !! lit "api-secret" = None
        /\ dom h =@{gset str} {[lit "Content-Type"; lit "Accept"]}
        /\ forall k v, h !! k = Some v -> api_secret (self w) <> Some v)
    /\ (forall s k, api_secret (self w) = Some s -> h !! k = Some s ->
        (k <> lit "api-secret" /\ s = lit "application/json")
        \/ (k = lit "api-secret"
            /\ exists b, encode_utf8 s = Some b /\ s = SHA1.hexdigest b)).
Proof.
  intros Henc. rewrite request_headers_cases.
  set (base := <[lit "Accept" := lit "application/json"]>
                 (<[lit "Content-Type" := lit "application/json"]> ∅)).
  destruct (base_headers_lookup base eq_refl)
    as (Hct & Hacc & Hsec & Hdom & Hval).
  destruct header_keys_distinct as (Hac & Hsa & Hsc).
  destruct (api_secret (self w)) as [[|c s]|] eqn:Hs; cbv beta iota zeta.
  - exists base. split_and!; [reflexivity|exact Hct|exact Hacc| | |].
    + intros s [= <-] Hne. by destruct Hne.
    + intros _. split_and!; [exact Hsec|exact Hdom|].
      intros k v Hk [= <-]. by apply Hval in Hk.
    + intros s k [= <-] Hk. by apply Hval in Hk.
  - destruct (encode_utf8_total (c :: s) (Henc _ eq_refl)) as [b Hb].
    rewrite Hb.
    exists (<[lit "api-secret" := SHA1.hexdigest b]> base).
    split_and!; [reflexivity| | | | |].
    + rewrite lookup_insert_ne by exact Hsc. exact Hct.
    + rewrite lookup_insert_ne by exact Hsa. exact Hacc.
    + intros s' [= <-] _. exists b.
      destruct (hexdigest_shape b) as [Hlen Hhex].
      split_and!; [exact Hb| |exact Hlen|exact Hhex|].
      * apply lookup_insert_eq.
      * rewrite dom_insert_L, Hdom. set_solver.
    + intros [[=]|[=]].
    + intros s' k [= <-]. rewrite lookup_insert. case_decide as Hk.
      * intros Hd. right. split; [symmetry; exact Hk|].
        exists b. split; [exact Hb|]. congruence.
      * intros Hv%Hval. left. split; [congruence|exact Hv].
  - exists base. split_and!; [reflexivity|exact Hct|exact Hacc| | |].
    + intros s [=].
    + intros _. split_and!; [exact Hsec|exact Hdom|].
      intros k v Hk [=].
    + intros s k [=].
Qed.

(** C1, an instance: the secret ["abc"] is sent as the SHA-1 test vector
    of FIPS 180. *)
Lemma request_headers_api_secret_abc :
  exists h : gmap str str,
    request_headers (Canned.world (Some (lit "abc")))
    = (Ok h, Canned.world (Some (lit "abc")))
    /\ h !! lit "api-secret"
       = Some (lit "a9993e364706816aba3e25717850c26c9cd0d89d").
Proof.
  destruct (request_headers_api_secret (Canned.world (Some (lit "abc"))))
    as (h & Hrun & _ & _ & Hsecret & _).
  - intros s [= <-]. reflexivity.
  - exists h. split; [exact Hrun|].
    destruct (Hsecret (lit "abc") eq_refl) as (b & Hb & Hk & _);
      [discriminate|].
    rewrite Hk. f_equal.
    injection Hb as <-. vm_compute. reflexivity.
Defined.

(** C1 as stated fails twice.  A [str] may hold a lone surrogate, and
    with such a secret [request_headers] raises instead of returning a
    mapping.  And the secret [application/json], which is not empty and
    can be encoded, is the value of the header [Content-Type]: the raw
    secret is a header value. *)
Lemma request_headers_fails_as_stated :
  (is_str [0xD800] = true
   /\ request_headers (Canned.world (Some [0xD800]))
      = (Raise UnicodeEncodeError, Canned.world (Some [0xD800]))
   /\ ~ exists h : gmap str str,
          fst (request_headers (Canned.world (Some [0xD800]))) = Ok h)
  /\ (encodable (lit "application/json") = true
      /\ exists h : gmap str str,
           fst (request_headers
                  (Canned.world (Some (lit "application/json")))) = Ok h
           /\ h !! lit "Content-Type"
              = api_secret (self (Canned.world
                                    (Some (lit "application/json"))))).
Proof.
  split.
  - split; [reflexivity|]. split; [reflexivity|].
    intros [h Hh]. discriminate Hh.
  - split; [reflexivity|].
    rewrite request_headers_cases. cbn [fst].
    eexists. split; [reflexivity|].
    destruct header_keys_distinct as (Hac & Hsa & Hsc).
    rewrite !lookup_insert_ne by done. apply lookup_insert_eq.
Qed.

End Headers.

(* ===================================================================== *)
(** ** List comprehensions over decoded bodies *)
(* ===================================================================== *)

Section Comprehension.
Context {A : Type} (f : value -> result A).

Lemma mapM_cons x l :
  mapM f (x :: l) = y ← f x; k ← mapM f l; Ok (y :: k).
Proof. reflexivity. Qed.

(** The comprehension succeeds exactly when every element maps, and then
    yields the records in the order of the elements. *)
Lemma mapM_Ok l k : mapM f l = Ok k <-> Forall2 (fun x y => f x = Ok y) l k.
Proof.
  split.
  - revert k. induction l as [|x l IH]; intros k.
    + intros [= <-]. constructor.
    + rewrite mapM_cons. unfold mbind, result_bind.
      destruct (f x) as [y|e] eqn:Hx; [|discriminate].
      destruct (mapM f l) as [k'|e]; [|discriminate].
      intros [= <-]. constructor; [exact Hx|]. by apply IH.
  - induction 1 as [|x y l k Hx _ IH]; [reflexivity|].
    by rewrite mapM_cons, Hx, IH.
Qed.

Lemma mapM_Ok_length l k : mapM f l = Ok k -> length k = length l.
Proof. intros H%mapM_Ok. symmetry. by eapply Forall2_length. Qed.

Lemma mapM_Ok_lookup l k i x :
  mapM f l = Ok k -> l !! i = Some x ->
  exists y, k !! i = Some y /\ f x = Ok y.
Proof.
  intros H%mapM_Ok Hi.
  destruct (Forall2_lookup_l _ _ _ _ _ H Hi) as (y & Hy & Hxy). eauto.
Qed.

End Comprehension.

(* ===================================================================== *)
(** ** get_treatments, get_activities: the empty-body case *)
(* ===================================================================== *)

Section EmptyBody.
Context {E : Env} {MD : Models}.

Lemma get_treatments_run w params :
  get_treatments params w
  = match fst (request_headers w) with
    | Raise e => (Raise e, w)
    | Ok h =>
        let req := get_request w (lit "/api/v1/treatments.json") h
                     (bound Ftreatments params) in
        match send (trace w) req with
        | Raise e => (Raise e, logged w [EvRequest req])
        | Ok r =>
            if (0 <? length (content r))%nat
            then (v ← json_loads (content r); xs ← iterate v;
                  mapM Treatment_new_from_json_dict xs,
                  logged w [EvRequest req; EvJson (content r)])
            else (Ok [], logged w [EvRequest req])
        end
    end.
Proof.
  unfold get_treatments. rewrite fetch_run.
  destruct (fst (request_headers w)) as [h|e]; [|done]. cbv zeta.
  destruct (send _ _) as [r|e]; [|done].
  rewrite guarded_body_run, logged_logged. reflexivity.
Qed.

Lemma get_activities_run w params :
  get_activities params w
  = match fst (request_headers w) with
    | Raise e => (Raise e, w)
    | Ok h =>
        let req := get_request w (lit "/api/v1/activity.json") h
                     (bound Factivities params) in
        match send (trace w) req with
        | Raise e => (Raise e, logged w [EvRequest req])
        | Ok r =>
            if (0 <? length (content r))%nat
            then (v ← json_loads (content r); xs ← iterate v;
                  mapM Activity_new_from_json_dict xs,
                  logged w [EvRequest req; EvJson (content r)])
            else (Ok [], logged w [EvRequest req])
        end
    end.
Proof.
  unfold get_activities. rewrite fetch_run.
  destruct (fst (request_headers w)) as [h|e]; [|done]. cbv zeta.
  destruct (send _ _) as [r|e]; [|done].
  rewrite guarded_body_run, logged_logged. reflexivity.
Qed.

Lemma get_heartrate_run w params :
  get_heartrate params w
  = match fst (request_headers w) with
    | Raise e => (Raise e, w)
    | Ok h =>
        let req := get_request w (lit "/api/v1/activity.json") h
                     (bound Fheartrate params) in
        match send (trace w) req with
        | Raise e => (Raise e, logged w [EvRequest req])
        | Ok r =>
            if (0 <? length (content r))%nat
            then (v ← json_loads (content r); xs ← iterate v;
                  mapM Treatment_new_from_json_dict xs,
                  logged w [EvRequest req; EvJson (content r)])
            else (Ok [], logged w [EvRequest req])
        end
    end.
Proof.
  unfold get_heartrate. rewrite fetch_run.
  destruct (fst (request_headers w)) as [h|e]; [|done]. cbv zeta.
  destruct (send _ _) as [r|e]; [|done].
  rewrite guarded_body_run, logged_logged. reflexivity.
Qed.

Lemma nonempty_test (b : bytes) :
  ((0 <? length b)%nat = false <-> length b = 0%nat)
  /\ ((0 <? length b)%nat = true <-> (0 < length b)%nat).
Proof.
  split; [rewrite Nat.ltb_ge|rewrite Nat.ltb_lt]; lia.
Qed.

(** C2.  Take [get_treatments] and any response [rt] to the request it
    sends, and likewise [get_activities] and any response [ra] to its
    request, each method on its own.  If the body of the response has
    length zero, the method returns the empty list and the only library
    call it has made is the request: the body is not handed to the JSON
    decoder, so no decode error can arise.  If the body is not empty, the
    method hands it to the decoder once and returns what the
    comprehension over the decoded value yields; when the decoded value is
    an array [xs], that is the list of the [Treatment] (respectively
    [Activity]) records of the elements of [xs], one per element and in
    their order. *)
Theorem get_treatments_activities_body
    (w : World) (params : option ref) (h : gmap str str) :
  let reqt := get_request w (lit "/api/v1/treatments.json") h
                (bound Ftreatments params) in
  let reqa := get_request w (lit "/api/v1/activity.json") h
                (bound Factivities params) in
  fst (request_headers w) = Ok h ->
  (forall rt, send (trace w) reqt = Ok rt ->
     (length (content rt) = 0%nat ->
        get_treatments params w = (Ok [], logged w [EvRequest reqt]))
     /\ ((0 < length (content rt))%nat ->
         get_treatments params w
         = (v ← json_loads (content rt); xs ← iterate v;
            mapM Treatment_new_from_json_dict xs,
            logged w [EvRequest reqt; EvJson (content rt)])
         /\ forall xs ts,
              json_loads (content rt) = Ok (VList xs) ->
              Forall2 (fun x t => Treatment_new_from_json_dict x = Ok t)
                      xs ts ->
              fst (get_treatments params w) = Ok ts))
  /\ (forall ra, send (trace w) reqa = Ok ra ->
     (length (content ra) = 0%nat ->
        get_activities params w = (Ok [], logged w [EvRequest reqa]))
     /\ ((0 < length (content ra))%nat ->
         get_activities params w
         = (v ← json_loads (content ra); xs ← iterate v;
            mapM Activity_new_from_json_dict xs,
            logged w [EvRequest reqa; EvJson (content ra)])
         /\ forall xs ts,
              json_loads (content ra) = Ok (VList xs) ->
              Forall2 (fun x t => Activity_new_from_json_dict x = Ok t)
                      xs ts ->
              fst (get_activities params w) = Ok ts)).
Proof.
  intros reqt reqa Hh.
  rewrite get_treatments_run, get_activities_run, Hh. cbv zeta.
  fold reqt reqa.
  split; intros r ->; split.
  - intros Hz%nonempty_test. by rewrite Hz.
  - intros Hn%nonempty_test. rewrite Hn. split; [reflexivity|].
    intros xs ts Hxs Hall%mapM_Ok. simpl. rewrite Hxs. exact Hall.
  - intros Hz%nonempty_test. by rewrite Hz.
  - intros Hn%nonempty_test. rewrite Hn. split; [reflexivity|].
    intros xs ts Hxs Hall%mapM_Ok. simpl. rewrite Hxs. exact Hall.
Qed.

End EmptyBody.

(** C2, an instance: a server that answers 200 with an empty body.  Both
    methods return the empty list and nothing reaches the decoder (which
    would refuse the empty text). *)
Lemma get_treatments_activities_body_canned :
  let E := Canned.server 200 "" in
  let w := Canned.world None in
  json_loads [] = Raise DecodeError
  /\ fst (@get_treatments E Canned.models None w) = Ok []
  /\ decoded_of (trace (snd (@get_treatments E Canned.models None w))) = []
  /\ fst (@get_activities E Canned.models None w) = Ok []
  /\ decoded_of (trace (snd (@get_activities E Canned.models None w))) = [].
Proof.
  intros E w.
  destruct (@get_treatments_activities_body E Canned.models w None
              (<[lit "Accept" := lit "application/json"]>
                 (<[lit "Content-Type" := lit "application/json"]> ∅))
              eq_refl) as (Ht & Ha).
  destruct (Ht (mkResponse 200 []) eq_refl) as (Htz & _).
  destruct (Ha (mkResponse 200 []) eq_refl) as (Haz & _).
  rewrite (Htz eq_refl), (Haz eq_refl). split_and!; reflexivity.
Defined.

(** A body that is not empty is decoded and mapped element by element. *)
Example get_treatments_two_elements :
  fst (@get_treatments
         (Canned.server 200 "[{'eventType': 'Note'}, {'carbs': 15}]")
         Canned.models (Some (Obj 1)) (Canned.world None))
  = Ok [[(lit "eventType", VStr (lit "Note"))]; [(lit "carbs", VInt 15)]].
Proof. vm_compute. reflexivity. Qed.

(* ===================================================================== *)
(** ** get_sgvs *)
(* ===================================================================== *)

Section Sgvs.
Context {E : Env} {MD : Models}.

Lemma get_sgvs_run w params :
  get_sgvs params w
  = match fst (request_headers w) with
    | Raise e => (Raise e, w)
    | Ok h =>
        let req := get_request w (lit "/api/v1/entries/sgv.json") h
                     (bound Fsgvs params) in
        match send (trace w) req with
        | Raise e => (Raise e, logged w [EvRequest req])
        | Ok r =>
            (v ← json_loads (content r); xs ← iterate v;
             mapM SGV_new_from_json_dict xs,
             logged w [EvRequest req; EvJson (content r)])
        end
    end.
Proof.
  unfold get_sgvs. rewrite fetch_run.
  destruct (fst (request_headers w)) as [h|e]; [|done]. cbv zeta.
  destruct (send _ _) as [r|e]; [|done].
  unfold json, comprehension. run. rewrite <- app_assoc.
  by destruct (json_loads (content r)).
Qed.

(** The SGV constructor accepts a well-formed object and keeps its
    [sgv]. *)
Lemma SGV_new_from_json_dict_well_formed x :
  well_formed_SGV x = true ->
  exists s, SGV_new_from_json_dict x = Ok s
            /\ sgv_field x = Some (VInt (sgv s)).
Proof.
  unfold well_formed_SGV, SGV_new_from_json_dict, sgv_field.
  destruct x as [| | | | |l|d]; try discriminate.
  destruct (dict_get (lit "sgv") d) as [[| |n| | | |]|]; try discriminate.
  destruct (timestamp_of d) as [t|]; [|discriminate].
  intros _. eexists. split; reflexivity.
Qed.

Lemma mapM_SGV_well_formed xs :
  forallb well_formed_SGV xs = true ->
  exists svs, mapM SGV_new_from_json_dict xs = Ok svs.
Proof.
  induction xs as [|x xs IH]; [by exists []|].
  intros [Hx Hxs]%andb_true_iff.
  destruct (SGV_new_from_json_dict_well_formed x Hx) as (s & Hs & _).
  destruct (IH Hxs) as [svs Hsvs].
  exists (s :: svs). by rewrite mapM_cons, Hs, Hsvs.
Qed.

(** C3.  Let [r] be the response to the request that [get_sgvs] sends,
    and let its body decode to an array [xs] of well-formed SGV objects.
    Then [get_sgvs] returns a list [svs] with as many elements as [xs];
    the [i]-th element of [svs] is the SGV record built from the [i]-th
    element of [xs], and its [sgv] is the [sgv] member of that element. *)
Theorem get_sgvs_elementwise
    (w : World) (params : option ref) (h : gmap str str) (r : Response)
    (xs : list value) :
  let req := get_request w (lit "/api/v1/entries/sgv.json") h
               (bound Fsgvs params) in
  fst (request_headers w) = Ok h ->
  send (trace w) req = Ok r ->
  json_loads (content r) = Ok (VList xs) ->
  forallb well_formed_SGV xs = true ->
  exists svs : list SGV,
    get_sgvs params w
    = (Ok svs, logged w [EvRequest req; EvJson (content r)])
    /\ length svs = length xs
    /\ forall i x, xs !! i = Some x ->
         exists s, svs !! i = Some s
                   /\ SGV_new_from_json_dict x = Ok s
                   /\ sgv_field x = Some (VInt (sgv s)).
Proof.
  intros req Hh Hr Hxs Hwf.
  destruct (mapM_SGV_well_formed xs Hwf) as [svs Hsvs].
  exists svs. rewrite get_sgvs_run, Hh. cbv zeta. fold req.
  rewrite Hr, Hxs. split_and!.
  - simpl. by rewrite Hsvs.
  - by eapply mapM_Ok_length.
  - intros i x Hi.
    destruct (mapM_Ok_lookup _ _ _ _ _ Hsvs Hi) as (s & Hs & Hx).
    exists s. split_and!; [done..|].
    assert (well_formed_SGV x = true) as Hwx.
    { rewrite forallb_forall in Hwf. apply Hwf.
      apply list_elem_of_In. by eapply list_elem_of_lookup_2. }
    destruct (SGV_new_from_json_dict_well_formed x Hwx) as (s' & Hs' & Hf).
    congruence.
Qed.

End Sgvs.

(** C3, an instance: two readings, returned in the order of the array. *)
Lemma get_sgvs_elementwise_canned :
  let E := Canned.server 200 Canned.readings in
  exists s0 s1,
    fst (@get_sgvs E Canned.models (Some (Obj 1)) (Canned.world None))
    = Ok [s0; s1]
    /\ sgv s0 = 120%Z /\ sgv s1 = 118%Z
    /\ direction s0 = Some (lit "Flat") /\ direction s1 = None.
Proof.
  intros E.
  destruct (@get_sgvs_elementwise E Canned.models (Canned.world None)
              (Some (Obj 1))
              (<[lit "Accept" := lit "application/json"]>
                 (<[lit "Content-Type" := lit "application/json"]> ∅))
              (mkResponse 200 (Canned.text Canned.readings))
              [VDict [(lit "sgv", VInt 120);
                      (lit "dateString", VStr (lit "2017-03-07T01:10:26.000Z"));
                      (lit "direction", VStr (lit "Flat"))];
               VDict [(lit "dateString", VStr (lit "2017-03-07T01:15:26.000Z"));
                      (lit "sgv", VInt 118);
                      (lit "noise", VInt 1)]]
              eq_refl eq_refl)
    as (svs & Hrun & Hlen & Hget).
  - vm_compute. reflexivity.
  - vm_compute. reflexivity.
  - destruct (Hget 0%nat _ eq_refl) as (s0 & H0 & Hs0 & _).
    destruct (Hget 1%nat _ eq_refl) as (s1 & H1 & Hs1 & _).
    destruct svs as [|t0 [|t1 [|]]]; try discriminate Hlen.
    injection H0 as ->. injection H1 as ->.
    exists s0, s1. rewrite Hrun. split; [reflexivity|].
    injection Hs0 as <-. injection Hs1 as <-.
    split_and!; reflexivity.
Defined.

(* ===================================================================== *)
(** ** get_heartrate *)
(* ===================================================================== *)

Section Heartrate.
Context {E : Env} {MD : Models}.

(** Called on the same [dict], [get_heartrate] and [get_activities] send
    the same requests. *)
Lemma get_heartrate_get_activities_requests w p :
  requests_of (trace (snd (get_heartrate (Some p) w)))
  = requests_of (trace (snd (get_activities (Some p) w))).
Proof.
  rewrite get_heartrate_run, get_activities_run. simpl bound.
  destruct (fst (request_headers w)) as [h|e]; [|done]. cbv zeta.
  destruct (send _ _) as [r|e]; [|done].
  destruct (0 <? length (content r))%nat; simpl;
    unfold requests_of; by rewrite !omap_app.
Qed.

(** C4.  [get_heartrate] sends a GET to [site_url + '/api/v1/activity.json'],
    the very request [get_activities] sends when called on the same
    [dict].  Let [r] be the response.  If its body has length zero the
    method returns the empty list and the body is not handed to the JSON
    decoder.  Otherwise the body is decoded and the elements are mapped
    with [Treatment.new_from_json_dict], not with the Activity
    constructor: the method returns a list of [Treatment]. *)
Theorem get_heartrate_as_treatments
    (w : World) (params : option ref) (h : gmap str str) (r : Response) :
  let req :=
    mkRequest GET (site_url (self w) ++ lit "/api/v1/activity.json") h
              (Some (dicts w (bound Fheartrate params))) None in
  fst (request_headers w) = Ok h ->
  send (trace w) req = Ok r ->
  (forall p,
     requests_of (trace (snd (get_heartrate (Some p) w)))
     = requests_of (trace (snd (get_activities (Some p) w))))
  /\ (length (content r) = 0%nat ->
      get_heartrate params w = (Ok [], logged w [EvRequest req]))
  /\ ((0 < length (content r))%nat ->
      get_heartrate params w
      = (v ← json_loads (content r); xs ← iterate v;
         mapM Treatment_new_from_json_dict xs,
         logged w [EvRequest req; EvJson (content r)])
      /\ forall xs (ts : list Treatment),
           json_loads (content r) = Ok (VList xs) ->
           Forall2 (fun x t => Treatment_new_from_json_dict x = Ok t) xs ts ->
           fst (get_heartrate params w) = Ok ts).
Proof.
  intros req Hh Hr.
  split; [apply get_heartrate_get_activities_requests|].
  rewrite get_heartrate_run, Hh. cbv zeta.
  change (get_request w (lit "/api/v1/activity.json") h
            (bound Fheartrate params)) with req.
  rewrite Hr. split.
  - intros Hz%nonempty_test. by rewrite Hz.
  - intros Hn%nonempty_test. rewrite Hn. split; [reflexivity|].
    intros xs ts Hxs Hall%mapM_Ok. simpl. rewrite Hxs. exact Hall.
Qed.

End Heartrate.

(** C4, an instance: an activity served by the activity endpoint comes
    back from [get_heartrate] as a Treatment. *)
Lemma get_heartrate_as_treatments_canned :
  let E := Canned.server 200 "[{'activity_type': 'Heartrate', 'value': 70}]" in
  let w := Canned.world None in
  fst (@get_heartrate E Canned.models None w)
  = Ok ([[(lit "activity_type", VStr (lit "Heartrate"));
          (lit "value", VInt 70)]] : list (@Treatment Canned.models))
  /\ requests_of (trace (snd (@get_heartrate E Canned.models None w)))
     = [mkRequest GET (lit "https://ns.example/api/v1/activity.json")
          (<[lit "Accept" := lit "application/json"]>
             (<[lit "Content-Type" := lit "application/json"]> ∅))
          (Some []) None].
Proof.
  intros E w.
  destruct (@get_heartrate_as_treatments E Canned.models w None
              (<[lit "Accept" := lit "application/json"]>
                 (<[lit "Content-Type" := lit "application/json"]> ∅))
              (mkResponse 200
                 (Canned.text "[{'activity_type': 'Heartrate', 'value': 70}]"))
              eq_refl eq_refl) as (_ & _ & Hn).
  destruct Hn as [Hrun _]; [vm_compute; lia|].
  rewrite Hrun. split; vm_compute; reflexivity.
Defined.

(* ===================================================================== *)
(** ** get_profiles *)
(* ===================================================================== *)

Section Profiles.
Context {E : Env} {MD : Models}.

Lemma get_profiles_run w params :
  get_profiles params w
  = match fst (request_headers w) with
    | Raise e => (Raise e, w)
    | Ok h =>
        let req := get_request w (lit "/api/v1/profile.json") h
                     (bound Fprofiles params) in
        match send (trace w) req with
        | Raise e => (Raise e, logged w [EvRequest req])
        | Ok r =>
            (v ← json_loads (content r);
             ProfileDefinitionSet_new_from_json_array v,
             logged w [EvRequest req; EvJson (content r)])
        end
    end.
Proof.
  unfold get_profiles. rewrite fetch_run.
  destruct (fst (request_headers w)) as [h|e]; [|done]. cbv zeta.
  destruct (send _ _) as [r|e]; [|done].
  unfold json. run. rewrite <- app_assoc.
  by destruct (json_loads (content r)).
Qed.

(** C6.  Let [r] be the response to the request that [get_profiles]
    sends.  Whatever the length of its body, the body is handed to the
    JSON decoder, and the method returns what the ProfileDefinitionSet
    constructor makes of the decoded value.  For a decoded array that is
    the set of the ProfileDefinitions of its elements, in order; for the
    empty array it is the set with no ProfileDefinition, not a failure. *)
Theorem get_profiles_always_decodes
    (w : World) (params : option ref) (h : gmap str str) (r : Response) :
  let req := get_request w (lit "/api/v1/profile.json") h
               (bound Fprofiles params) in
  fst (request_headers w) = Ok h ->
  send (trace w) req = Ok r ->
  get_profiles params w
  = (v ← json_loads (content r); ProfileDefinitionSet_new_from_json_array v,
     logged w [EvRequest req; EvJson (content r)])
  /\ decoded_of (trace (snd (get_profiles params w)))
     = decoded_of (trace w) ++ [content r]
  /\ (json_loads (content r) = Ok (VList []) ->
      fst (get_profiles params w) = Ok (mkProfileDefinitionSet []))
  /\ (forall xs ps,
        json_loads (content r) = Ok (VList xs) ->
        Forall2 (fun x p => ProfileDefinition_new_from_json_dict x = Ok p)
                xs ps ->
        fst (get_profiles params w) = Ok (mkProfileDefinitionSet ps)).
Proof.
  intros req Hh Hr. rewrite get_profiles_run, Hh. cbv zeta. fold req.
  rewrite Hr. split_and!.
  - reflexivity.
  - simpl. unfold decoded_of. rewrite omap_app. reflexivity.
  - intros Hv. simpl. by rewrite Hv.
  - intros xs ps Hv Hall%mapM_Ok. simpl. rewrite Hv. simpl.
    by rewrite Hall.
Qed.

End Profiles.

(** C6, an instance: the body [[]]. *)
Lemma get_profiles_always_decodes_canned :
  let E := Canned.server 200 "[]" in
  let w := Canned.world None in
  fst (@get_profiles E Canned.models None w) = Ok (mkProfileDefinitionSet [])
  /\ decoded_of (trace (snd (@get_profiles E Canned.models None w)))
     = [Canned.text "[]"].
Proof.
  intros E w.
  destruct (@get_profiles_always_decodes E Canned.models w None
              (<[lit "Accept" := lit "application/json"]>
                 (<[lit "Content-Type" := lit "application/json"]> ∅))
              (mkResponse 200 (Canned.text "[]")) eq_refl eq_refl)
    as (_ & Hdec & Hempty & _).
  split; [apply Hempty; reflexivity|exact Hdec].
Defined.

(** With an empty body [get_profiles] still decodes, and so fails. *)
Example get_profiles_empty_body :
  fst (@get_profiles (Canned.server 200 "") Canned.models None
         (Canned.world None))
  = Raise DecodeError.
Proof. vm_compute. reflexivity. Qed.

(* ===================================================================== *)
(** ** create_activity, create_heartrate *)
(* ===================================================================== *)

Section Create.
Context {E : Env} {MD : Models}.

(** The body of the two methods that post. *)
Lemma created_body_run (r : Response) w :
  (if (status_code r =? 201)%Z
   then json r
   else print (lit "Error creating activity. Status code: "
                 ++ str_of_int (status_code r));; mret VNone) w
  = if (status_code r =? 201)%Z
    then (json_loads (content r), logged w [EvJson (content r)])
    else (Ok VNone,
          logged w [EvPrint (lit "Error creating activity. Status code: "
                               ++ str_of_int (status_code r))]).
Proof. by destruct (status_code r =? 201)%Z. Qed.

Lemma create_activity_run w :
  create_activity w
  = match fst (request_headers w) with
    | Raise e => (Raise e, w)
    | Ok h =>
        let req := post_request w create_activity_data h in
        match send (trace w) req with
        | Raise e => (Raise e, logged w [EvRequest req])
        | Ok r =>
            if (status_code r =? 201)%Z
            then (json_loads (content r),
                  logged w [EvRequest req; EvJson (content r)])
            else (Ok VNone,
                  logged w [EvRequest req;
                            EvPrint (lit "Error creating activity. Status code: "
                                       ++ str_of_int (status_code r))])
        end
    end.
Proof.
  unfold create_activity. cbv zeta.
  rewrite (create_run _ create_activity_data w).
  destruct (fst (request_headers w)) as [h|e]; [|done]. cbv zeta.
  destruct (send _ _) as [r|e]; [|done].
  rewrite created_body_run, !logged_logged. reflexivity.
Qed.

Lemma create_heartrate_run w :
  create_heartrate w
  = match fst (request_headers w) with
    | Raise e => (Raise e, w)
    | Ok h =>
        let req := post_request w create_heartrate_data h in
        match send (trace w) req with
        | Raise e => (Raise e, logged w [EvRequest req])
        | Ok r =>
            if (status_code r =? 201)%Z
            then (json_loads (content r),
                  logged w [EvRequest req; EvJson (content r)])
            else (Ok VNone,
                  logged w [EvRequest req;
                            EvPrint (lit "Error creating activity. Status code: "
                                       ++ str_of_int (status_code r))])
        end
    end.
Proof.
  unfold create_heartrate. cbv zeta.
  rewrite (create_run _ create_heartrate_data w).
  destruct (fst (request_headers w)) as [h|e]; [|done]. cbv zeta.
  destruct (send _ _) as [r|e]; [|done].
  rewrite created_body_run, !logged_logged. reflexivity.
Qed.

(** C5 (as amended).  [create_activity] and [create_heartrate] take no
    data from the caller: each posts its own constant list of two objects
    to [site_url + '/api/v1/activity.json'].  Take either method and any
    response to the request it sends.  With status 201 the method hands
    the body to the JSON decoder and its outcome is that of the decoder:
    it returns the decoded body, or raises the decoder's error when the
    body is no JSON.  With any other status it prints
    ['Error creating activity. Status code: '] followed by the status in
    decimal, returns [None], and raises nothing. *)
Theorem create_posts_fixed_payload (w : World) (h : gmap str str) :
  let url := site_url (self w) ++ lit "/api/v1/activity.json" in
  let reqa := mkRequest POST url h None (Some create_activity_data) in
  let reqh := mkRequest POST url h None (Some create_heartrate_data) in
  let message (r : Response) :=
    lit "Error creating activity. Status code: "
      ++ str_of_int (status_code r) in
  fst (request_headers w) = Ok h ->
  (exists x y, create_activity_data = VList [x; y])
  /\ (exists x y, create_heartrate_data = VList [x; y])
  /\ (forall ra, send (trace w) reqa = Ok ra ->
      (status_code ra = 201%Z ->
         create_activity w
         = (json_loads (content ra),
            logged w [EvRequest reqa; EvJson (content ra)])
         /\ (forall v, json_loads (content ra) = Ok v ->
                       fst (create_activity w) = Ok v)
         /\ (forall e, json_loads (content ra) = Raise e ->
                       fst (create_activity w) = Raise e))
      /\ (status_code ra <> 201%Z ->
          create_activity w
          = (Ok VNone, logged w [EvRequest reqa; EvPrint (message ra)])))
  /\ (forall rh, send (trace w) reqh = Ok rh ->
      (status_code rh = 201%Z ->
         create_heartrate w
         = (json_loads (content rh),
            logged w [EvRequest reqh; EvJson (content rh)])
         /\ (forall v, json_loads (content rh) = Ok v ->
                       fst (create_heartrate w) = Ok v)
         /\ (forall e, json_loads (content rh) = Raise e ->
                       fst (create_heartrate w) = Raise e))
      /\ (status_code rh <> 201%Z ->
          create_heartrate w
          = (Ok VNone, logged w [EvRequest reqh; EvPrint (message rh)]))).
Proof.
  intros url reqa reqh message Hh.
  rewrite create_activity_run, create_heartrate_run, Hh. cbv zeta.
  change (post_request w create_activity_data h) with reqa.
  change (post_request w create_heartrate_data h) with reqh.
  split_and!.
  - by eexists _, _.
  - by eexists _, _.
  - intros r ->. split.
    + intros ->. cbn [fst]. split_and!; [reflexivity|by intros v ->..].
    + intros Hne%Z.eqb_neq. by rewrite Hne.
  - intros r ->. split.
    + intros ->. cbn [fst]. split_and!; [reflexivity|by intros v ->..].
    + intros Hne%Z.eqb_neq. by rewrite Hne.
Qed.

End Create.

(** C5, an instance: a server that answers 500.  Both methods return
    [None] and print the status. *)
Lemma create_posts_fixed_payload_canned :
  let E := Canned.server 500 "{'status': 'error'}" in
  let w := Canned.world None in
  fst (@create_activity E w) = Ok VNone
  /\ fst (@create_heartrate E w) = Ok VNone
  /\ last (trace (snd (@create_activity E w)))
     = Some (EvPrint (lit "Error creating activity. Status code: 500")).
Proof.
  intros E w.
  destruct (@create_posts_fixed_payload E w
              (<[lit "Accept" := lit "application/json"]>
                 (<[lit "Content-Type" := lit "application/json"]> ∅))
              eq_refl) as (_ & _ & Ha & Hr).
  destruct (Ha (mkResponse 500 (Canned.text "{'status': 'error'}")) eq_refl)
    as (_ & Hfa).
  destruct (Hr (mkResponse 500 (Canned.text "{'status': 'error'}")) eq_refl)
    as (_ & Hfr).
  rewrite Hfa, Hfr by discriminate. split_and!; reflexivity.
Defined.

(** With status 201 the decoded body comes back. *)
Example create_activity_created :
  fst (@create_activity (Canned.server 201 "{'status': 'ok'}")
         (Canned.world None))
  = Ok (VDict [(lit "status", VStr (lit "ok"))]).
Proof. vm_compute. reflexivity. Qed.

(** C5 as stated fails: a response with status 201 and an empty body.
    The request has been posted and answered, the body is no JSON, and
    both methods raise the decoder's error to the caller. *)
Lemma create_raises_on_created_without_json :
  let E := Canned.server 201 "" in
  let w := Canned.world None in
  (forall req, @send E (trace w) req = Ok (mkResponse 201 []))
  /\ @json_loads E [] = Raise DecodeError
  /\ fst (@create_activity E w) = Raise DecodeError
  /\ fst (@create_heartrate E w) = Raise DecodeError.
Proof. intros E w. split_and!; [reflexivity|vm_compute; reflexivity..]. Qed.

(* ===================================================================== *)
(** ** get_sgvs has no empty-body test *)
(* ===================================================================== *)

Section SgvsEmptyBody.
Context {E : Env} {MD : Models}.

(** C9.  Let [r] be the response to the request that [get_sgvs] sends and
    let its body have length zero.  [get_sgvs] hands the empty body to the
    JSON decoder all the same; as the decoder refuses the empty text,
    [get_sgvs] raises the decode error.  [get_treatments],
    [get_activities] and [get_heartrate], given a response with an empty
    body, return the empty list instead. *)
Theorem get_sgvs_decodes_empty_body
    (w : World) (params : option ref) (h : gmap str str) (r : Response) :
  let get path f :=
    mkRequest GET (site_url (self w) ++ lit path) h
              (Some (dicts w (bound f params))) None in
  fst (request_headers w) = Ok h ->
  send (trace w) (get "/api/v1/entries/sgv.json" Fsgvs) = Ok r ->
  length (content r) = 0%nat ->
  json_loads [] = Raise DecodeError ->
  get_sgvs params w
  = (Raise DecodeError,
     logged w [EvRequest (get "/api/v1/entries/sgv.json" Fsgvs); EvJson []])
  /\ forall r',
       length (content r') = 0%nat ->
       (send (trace w) (get "/api/v1/treatments.json" Ftreatments) = Ok r' ->
        fst (get_treatments params w) = Ok [])
       /\ (send (trace w) (get "/api/v1/activity.json" Factivities) = Ok r' ->
           fst (get_activities params w) = Ok [])
       /\ (send (trace w) (get "/api/v1/activity.json" Fheartrate) = Ok r' ->
           fst (get_heartrate params w) = Ok []).
Proof.
  intros get Hh Hr Hlen Hempty. split.
  - rewrite get_sgvs_run, Hh. cbv zeta.
    change (get_request w (lit "/api/v1/entries/sgv.json") h
              (bound Fsgvs params)) with (get "/api/v1/entries/sgv.json" Fsgvs).
    rewrite Hr. apply nil_length_inv in Hlen. rewrite Hlen, Hempty.
    reflexivity.
  - intros r' Hz%nonempty_test.
    rewrite get_treatments_run, get_activities_run, get_heartrate_run, Hh.
    cbv zeta. unfold get_request. fold (get "/api/v1/treatments.json" Ftreatments).
    fold (get "/api/v1/activity.json" Factivities).
    fold (get "/api/v1/activity.json" Fheartrate).
    split_and!; intros ->; by rewrite Hz.
Qed.

End SgvsEmptyBody.

(** C9, an instance: a server that answers 200 with an empty body. *)
Lemma get_sgvs_decodes_empty_body_canned :
  let E := Canned.server 200 "" in
  let w := Canned.world None in
  fst (@get_sgvs E Canned.models None w) = Raise DecodeError
  /\ decoded_of (trace (snd (@get_sgvs E Canned.models None w))) = [[]]
  /\ fst (@get_treatments E Canned.models None w) = Ok [].
Proof.
  intros E w.
  destruct (@get_sgvs_decodes_empty_body E Canned.models w None
              (<[lit "Accept" := lit "application/json"]>
                 (<[lit "Content-Type" := lit "application/json"]> ∅))
              (mkResponse 200 []) eq_refl eq_refl eq_refl eq_refl)
    as (Hrun & Hothers).
  destruct (Hothers (mkResponse 200 []) eq_refl) as (Ht & _).
  rewrite Hrun. split_and!; [reflexivity|reflexivity|].
  apply Ht. reflexivity.
Defined.

(* ===================================================================== *)
(** ** The request a fetch sends *)
(* ===================================================================== *)

Section Requests.
Context {E : Env} {MD : Models}.



End Requests.


(* ===================================================================== *)
(** ** What a call leaves untouched *)
(* ===================================================================== *)

Section Frame.
Context {E : Env} {MD : Models}.

(** A call only adds library calls to the trace. *)
Lemma perform_logged c w : exists es, snd (perform c w) = logged w es.
Proof.
  destruct c as [|[] params| |]; unfold perform, answered; cbn [snd].
  - exists []. by rewrite request_headers_frame, logged_nil.
  - rewrite get_sgvs_run.
    destruct (fst (request_headers w)); [|by exists []; rewrite logged_nil].
    cbv zeta. destruct (send _ _); by eexists.
  - rewrite get_treatments_run.
    destruct (fst (request_headers w)); [|by exists []; rewrite logged_nil].
    cbv zeta. destruct (send _ _) as [r|]; [|by eexists].
    destruct (0 <? length (content r))%nat; by eexists.
  - rewrite get_profiles_run.
    destruct (fst (request_headers w)); [|by exists []; rewrite logged_nil].
    cbv zeta. destruct (send _ _); by eexists.
  - rewrite get_activities_run.
    destruct (fst (request_headers w)); [|by exists []; rewrite logged_nil].
    cbv zeta. destruct (send _ _) as [r|]; [|by eexists].
    destruct (0 <? length (content r))%nat; by eexists.
  - rewrite get_heartrate_run.
    destruct (fst (request_headers w)); [|by exists []; rewrite logged_nil].
    cbv zeta. destruct (send _ _) as [r|]; [|by eexists].
    destruct (0 <? length (content r))%nat; by eexists.
  - rewrite create_activity_run.
    destruct (fst (request_headers w)); [|by exists []; rewrite logged_nil].
    cbv zeta. destruct (send _ _) as [r|]; [|by eexists].
    destruct (status_code r =? 201)%Z; by eexists.
  - rewrite create_heartrate_run.
    destruct (fst (request_headers w)); [|by exists []; rewrite logged_nil].
    cbv zeta. destruct (send _ _) as [r|]; [|by eexists].
    destruct (status_code r =? 201)%Z; by eexists.
Qed.

Lemma perform_dicts c w : dicts (snd (perform c w)) = dicts w.
Proof. destruct (perform_logged c w) as [es ->]. reflexivity. Qed.

(** C8.  Whatever method of the client is called ([request_headers], one
    of the five fetches with any argument, [create_activity],
    [create_heartrate]) and in whatever state, [site_url] and [api_secret]
    hold after the call the values they held before it. *)
Theorem configuration_is_immutable (c : call) (w : World) :
  site_url (self (snd (perform c w))) = site_url (self w)
  /\ api_secret (self (snd (perform c w))) = api_secret (self w).
Proof. destruct (perform_logged c w) as [es ->]. split; reflexivity. Qed.

(** Between calls the default mappings are as [def] made them: empty. *)
Lemma reachable_defaults a w :
  reachable a w -> forall f, dicts w (DefaultOf f) = [].
Proof.
  induction 1 as [objs|c w _ IH|w id d _ IH]; intros f.
  - reflexivity.
  - rewrite perform_dicts. apply IH.
  - cbn [dicts]. case_decide; [discriminate|apply IH].
Qed.

(** A fetch reads its argument through its contents only. *)
Lemma perform_fetch_contents f p q w :
  dicts w (bound f p) = dicts w (bound f q) ->
  perform (CallFetch f p) w = perform (CallFetch f q) w.
Proof.
  intros Heq. destruct f; unfold perform;
    rewrite ?get_sgvs_run, ?get_treatments_run, ?get_profiles_run,
      ?get_activities_run, ?get_heartrate_run;
    unfold get_request; by rewrite Heq.
Qed.

(** C10.  A fetch leaves every mapping, its argument included, with the
    contents it had before the call.  Hence in every state a program can
    reach the default mapping of a method is still empty, and a call that
    omits the argument gives the caller the same answer, and makes the
    same library calls, as a call on a fresh empty mapping. *)
Theorem fetch_leaves_params_unchanged
    (a : Api) (w : World) (f : fetch) (params : option ref) (fresh : positive) :
  dicts (snd (perform (CallFetch f params) w)) = dicts w
  /\ (reachable a w ->
      dicts (snd (perform (CallFetch f params) w)) (DefaultOf f) = []
      /\ (dicts w (Obj fresh) = [] ->
          perform (CallFetch f None) w
          = perform (CallFetch f (Some (Obj fresh))) w)).
Proof.
  split; [apply perform_dicts|]. intros Hreach. split.
  - rewrite perform_dicts. by eapply reachable_defaults.
  - intros Hfresh. apply perform_fetch_contents. simpl.
    rewrite Hfresh. by eapply reachable_defaults.
Qed.

End Frame.

(** C10, an instance: after a first call that omitted the argument, a
    second call that omits it and one on the empty mapping [Obj 2] agree. *)
Lemma fetch_leaves_params_unchanged_canned :
  let E := Canned.server 200 "[{'carbs': 15}]" in
  let w := snd (@perform E Canned.models (CallFetch Ftreatments None)
                  (Canned.world None)) in
  @perform E Canned.models (CallFetch Ftreatments None) w
  = @perform E Canned.models (CallFetch Ftreatments (Some (Obj 2))) w
  /\ dicts (snd (@perform E Canned.models (CallFetch Ftreatments None) w))
           (DefaultOf Ftreatments) = [].
Proof.
  intros E w.
  destruct (@fetch_leaves_params_unchanged E Canned.models
              (Canned.client None) w Ftreatments None 2%positive)
    as (_ & Hreach).
  destruct Hreach as (Hdefault & Hsame); [apply reach_call, reach_initial|].
  split; [apply Hsame; reflexivity|exact Hdefault].
Defined.

(* ===================================================================== *)
(** ** The steps of a call *)
(* ===================================================================== *)

Section Steps.
Context {E : Env} {MD : Models}.

(** Every method builds the headers, sends one request and deals with
    the response, in this order. *)
Lemma perform_steps c w : perform c w = steps c w.
Proof.
  destruct c as [|[] params| |]; unfold perform, answered, steps;
    rewrite ?get_sgvs_run, ?get_treatments_run, ?get_profiles_run,
      ?get_activities_run, ?get_heartrate_run, ?create_activity_run,
      ?create_heartrate_run;
    [rewrite (request_headers_run w) at 2; cbn [fst snd]|..];
    (destruct (fst (request_headers w)) as [h|e]; [|reflexivity]);
    cbn [request_of]; cbv zeta; try reflexivity;
    (destruct (send _ _) as [r|e]; [|reflexivity]);
    cbn [respond]; unfold guarded, created, decoded;
    try destruct (0 <? length (content r))%nat;
    try destruct (status_code r =? 201)%Z; reflexivity.
Qed.

Lemma calls_of_logged c w es :
  snd (perform c w) = logged w es -> calls_of c w = es.
Proof.
  unfold calls_of. intros ->. simpl. apply drop_app_length.
Qed.

(** A call leaves the world it found, with its library calls logged. *)
Lemma perform_calls_of c w : snd (perform c w) = logged w (calls_of c w).
Proof.
  destruct (perform_logged c w) as [es Hes].
  by rewrite (calls_of_logged c w es Hes).
Qed.

(** The headers a client gets depend on its [api_secret] alone. *)
Lemma request_headers_secret w w' :
  api_secret (self w) = api_secret (self w') ->
  fst (request_headers w) = fst (request_headers w').
Proof.
  intros Heq. rewrite !request_headers_cases. cbn [fst]. by rewrite Heq.
Qed.

End Steps.

(* ===================================================================== *)
(** ** When a call raises *)
(* ===================================================================== *)

Section Raising.
Context {E : Env} {MD : Models}.

Lemma utf8_codepoint_None c :
  is_codepoint c = true ->
  utf8_codepoint c = None <-> is_surrogate c = true.
Proof.
  unfold utf8_codepoint, is_codepoint. intros Hc. rewrite Hc.
  destruct (is_surrogate c) eqn:Hs.
  - unfold is_surrogate in Hs. apply andb_true_iff in Hs as [H1%N.leb_le _].
    assert ((c <? 0x80) = false) as -> by (apply N.ltb_ge; lia).
    assert ((c <? 0x800) = false) as -> by (apply N.ltb_ge; lia).
    done.
  - split; [|done]. by repeat case_match.
Qed.

Lemma encode_utf8_surrogate s :
  existsb is_surrogate s = true -> encode_utf8 s = None.
Proof.
  induction s as [|c s IH]; simpl; [discriminate|].
  intros [Hc|Hs]%orb_true_iff.
  - unfold utf8_codepoint. rewrite Hc.
    unfold is_surrogate in Hc. apply andb_true_iff in Hc as [H1%N.leb_le _].
    assert ((c <? 0x80) = false) as -> by (apply N.ltb_ge; lia).
    assert ((c <? 0x800) = false) as -> by (apply N.ltb_ge; lia).
    reflexivity.
  - rewrite (IH Hs). by destruct (utf8_codepoint c).
Qed.

(** Among the values of type [str], [encode('utf-8')] refuses exactly
    those that hold a surrogate. *)
Lemma encode_utf8_None s :
  is_str s = true ->
  encode_utf8 s = None <-> existsb is_surrogate s = true.
Proof.
  induction s as [|c s IH]; simpl; [done|].
  intros [Hc Hs]%andb_true_iff.
  rewrite orb_true_iff, <- (IH Hs), <- (utf8_codepoint_None c Hc).
  destruct (utf8_codepoint c), (encode_utf8 s); intuition congruence.
Qed.

(** X1.  For a client whose secret is a [str], [request_headers] raises
    exactly when the secret holds a surrogate code point; what it raises
    is then [UnicodeEncodeError] and nothing else, and in every case it
    leaves the state as it found it. *)
Theorem request_headers_raises_iff (w : World) :
  (forall s, api_secret (self w) = Some s -> is_str s = true) ->
  ((exists e, fst (request_headers w) = Raise e)
   <-> exists s, api_secret (self w) = Some s
                 /\ existsb is_surrogate s = true)
  /\ (forall e, fst (request_headers w) = Raise e -> e = UnicodeEncodeError)
  /\ snd (request_headers w) = w.
Proof.
  intros Hstr. rewrite request_headers_cases. cbn [fst snd].
  destruct (api_secret (self w)) as [[|c s]|] eqn:Hs.
  - split_and!; [|done..]. split; [by intros [? [=]]|].
    by intros (s & [= <-] & [=]).
  - pose proof (encode_utf8_None (c :: s) (Hstr _ eq_refl)) as Hnone.
    destruct (encode_utf8 (c :: s)) as [b|].
    + split_and!; [|done..]. split; [by intros [? [=]]|].
      intros (s' & [= <-] & Hsur). apply Hnone in Hsur. discriminate.
    + split_and!; [|by intros e [= <-]|done]. split; [|by eexists].
      intros _. exists (c :: s). split; [done|]. by apply Hnone.
  - split_and!; [|done..]. split; [by intros [? [=]]|].
    by intros (s & [=] & _).
Qed.

Lemma raised_failed c e : raised (failed c e) = Some e.
Proof. by destruct c as [|[] ?| |]. Qed.

(** X2.  With a secret that holds a surrogate, no call of the client gets
    as far as the network: every method raises [UnicodeEncodeError] and
    makes no library call at all. *)
Theorem surrogate_secret_blocks_every_call (c : call) (w : World) (s : str) :
  api_secret (self w) = Some s ->
  existsb is_surrogate s = true ->
  raised (fst (perform c w)) = Some UnicodeEncodeError
  /\ snd (perform c w) = w
  /\ calls_of c w = [].
Proof.
  intros Hs Hsur.
  assert (fst (request_headers w) = Raise UnicodeEncodeError) as Hh.
  { rewrite request_headers_cases, Hs. cbn [fst].
    destruct s as [|c' s']; [discriminate|].
    by rewrite (encode_utf8_surrogate _ Hsur). }
  assert (perform c w = (failed c UnicodeEncodeError, w)) as Hp.
  { rewrite perform_steps. unfold steps. by rewrite Hh. }
  split_and!.
  - rewrite Hp. apply raised_failed.
  - by rewrite Hp.
  - apply calls_of_logged. by rewrite Hp, logged_nil.
Qed.

(** X3.  An exception of the transport is not handled by any method: if
    the request that a call sends fails with [e], the call raises [e],
    and the request is the only library call it has made (nothing is
    decoded, nothing is printed, nothing is sent again). *)
Theorem transport_error_propagates
    (c : call) (w : World) (req : Request) (e : exn) :
  requests_of (calls_of c w) = [req] ->
  send (trace w) req = Raise e ->
  raised (fst (perform c w)) = Some e
  /\ calls_of c w = [EvRequest req].
Proof.
  unfold calls_of. rewrite perform_steps. unfold steps.
  destruct (fst (request_headers w)) as [h|e0].
  2:{ cbn [snd]. rewrite drop_all. discriminate. }
  destruct (request_of c w h) as [req0|].
  2:{ cbn [snd]. rewrite drop_all. discriminate. }
  destruct (send (trace w) req0) as [r|e0] eqn:Hsend; cbn [fst snd];
    unfold logged; cbn [trace]; rewrite drop_app_length.
  - intros [= <-]. congruence.
  - intros [= <-] He. rewrite Hsend in He. injection He as ->.
    split; [apply raised_failed|reflexivity].
Qed.

Lemma decoded_Raise {A} (f : value -> result A) r e :
  json_loads (content r) = Raise e -> decoded f r = Raise e.
Proof. unfold decoded. by intros ->. Qed.

(** X4.  An exception of the JSON decoder is not handled by any method
    either: if a call hands a body to the decoder and the decoder raises
    [e], the call raises [e]. *)
Theorem decode_error_propagates
    (c : call) (w : World) (body : bytes) (e : exn) :
  decoded_of (calls_of c w) = [body] ->
  json_loads body = Raise e ->
  raised (fst (perform c w)) = Some e.
Proof.
  unfold calls_of. rewrite perform_steps. unfold steps.
  destruct (fst (request_headers w)) as [h|e0].
  2:{ cbn [snd]. rewrite drop_all. discriminate. }
  destruct (request_of c w h) as [req0|] eqn:Hreq.
  2:{ cbn [snd]. rewrite drop_all. discriminate. }
  destruct (send (trace w) req0) as [r|e0]; cbn [fst snd];
    unfold logged; cbn [trace]; rewrite drop_app_length; [|discriminate].
  destruct c as [|[] params| |]; try discriminate Hreq;
    cbn [respond]; unfold guarded, created;
    try destruct (0 <? length (content r))%nat;
    try destruct (status_code r =? 201)%Z;
    cbn [fst snd decoded_of omap]; try discriminate;
    intros [= <-] Hb; cbn [raised];
    rewrite ?(decoded_Raise _ _ _ Hb), ?Hb; reflexivity.
Qed.

End Raising.

(* ===================================================================== *)
(** ** The library calls of a call and of a program *)
(* ===================================================================== *)

Section Traffic.
Context {E : Env} {MD : Models}.

Lemma drop_logged w es :
  drop (length (trace w)) (trace (logged w es)) = es.
Proof. unfold logged. cbn [trace]. apply drop_app_length. Qed.

(** X5.  A call makes its library calls in one of four shapes: none at
    all; one request; one request, then one decoding; or one request,
    then one printed line.  So no call sends a second request, decodes
    before it has a response, or both decodes and prints; a line is
    printed by [create_activity] and [create_heartrate] only, and
    [request_headers] makes no library call. *)
Theorem call_shape (c : call) (w : World) :
  snd (perform c w) = logged w (calls_of c w)
  /\ (calls_of c w = []
      \/ exists req,
           calls_of c w = [EvRequest req]
           \/ (exists body, calls_of c w = [EvRequest req; EvJson body])
           \/ (exists line, calls_of c w = [EvRequest req; EvPrint line]
                            /\ (c = CallCreateActivity
                                \/ c = CallCreateHeartrate)))
  /\ (c = CallHeaders -> calls_of c w = []).
Proof.
  unfold calls_of. rewrite perform_steps. unfold steps.
  destruct (fst (request_headers w)) as [h|e0].
  2:{ cbn [snd]. rewrite drop_all, logged_nil. auto. }
  destruct (request_of c w h) as [req|] eqn:Hreq.
  2:{ cbn [snd]. rewrite drop_all, logged_nil. auto. }
  destruct (send (trace w) req) as [r|e0]; cbn [snd];
    rewrite drop_logged; (split; [reflexivity|]).
  2:{ split; [eauto|]. intros ->. discriminate. }
  split; [|intros ->; discriminate].
  right. exists req.
  destruct c as [|[] params| |]; try discriminate Hreq;
    cbn [respond]; unfold guarded, created;
    try destruct (0 <? length (content r))%nat;
    try destruct (status_code r =? 201)%Z; cbn [snd]; eauto 6.
Qed.

Lemma request_of_clients c w h req :
  fst (request_headers w) = Ok h ->
  request_of c w h = Some req -> clients w req.
Proof.
  intros Hh Hreq. unfold clients.
  destruct c as [|[] params| |]; try discriminate Hreq;
    injection Hreq as <-; cbn; (split_and!; [done|done|]);
    eexists; (split; [|reflexivity]); unfold api_paths; set_solver.
Qed.

Lemma perform_requests c w :
  exists rs,
    requests_of (calls_of c w) = rs
    /\ (length rs <= 1)%nat
    /\ Forall (clients w) rs.
Proof.
  unfold calls_of. rewrite perform_steps. unfold steps.
  destruct (fst (request_headers w)) as [h|e0] eqn:Hh.
  2:{ cbn [snd]. rewrite drop_all. exists [].
      split_and!; [done|simpl; lia|constructor]. }
  destruct (request_of c w h) as [req|] eqn:Hreq.
  2:{ cbn [snd]. rewrite drop_all. exists [].
      split_and!; [done|simpl; lia|constructor]. }
  pose proof (request_of_clients c w h req Hh Hreq) as Hcl.
  destruct (send (trace w) req) as [r|e0]; cbn [snd]; rewrite drop_logged.
  2:{ exists [req]. split_and!; [done|simpl; lia|by constructor]. }
  exists [req]. split_and!; [|simpl; lia|by constructor].
  destruct c as [|[] params| |]; try discriminate Hreq;
    cbn [respond]; unfold guarded, created;
    try destruct (0 <? length (content r))%nat;
    try destruct (status_code r =? 201)%Z; reflexivity.
Qed.

Lemma clients_same w w' r :
  self w' = self w -> clients w r -> clients w' r.
Proof.
  unfold clients. intros Hself (Hh & Hw & Hp).
  rewrite Hself. split_and!; [|done..].
  rewrite <- Hh. apply request_headers_secret. by rewrite Hself.
Qed.

(** X6.  Whatever calls a program makes on a client, one after the
    other, the client and every mapping end as they began, the trace only
    grows, at most one request is sent per call, and every request sent
    carries exactly the headers that [request_headers] gives for this
    client and goes to [site_url] followed by one of the four API paths,
    as a GET with a query and no body or a POST with a body and no
    query.  In particular a client whose headers cannot be built sends
    nothing, however often it is called. *)
Theorem program_requests_are_the_clients (cs : list call) (w : World) :
  self (perform_all cs w) = self w
  /\ dicts (perform_all cs w) = dicts w
  /\ exists es,
       trace (perform_all cs w) = trace w ++ es
       /\ (length (requests_of es) <= length cs)%nat
       /\ Forall (clients w) (requests_of es).
Proof.
  revert w. induction cs as [|c cs IH]; intros w.
  - split_and!; [done..|]. exists []. simpl.
    rewrite app_nil_r. split_and!; [done|lia|constructor].
  - cbn [perform_all foldl]. fold (perform_all cs (snd (perform c w))).
    pose proof (perform_calls_of c w) as Hw'.
    destruct (perform_requests c w) as (rs & Hrs & Hlen & Hall).
    destruct (IH (snd (perform c w))) as (Hself & Hdicts & es & Htr & Hn & Hcl).
    assert (self (snd (perform c w)) = self w) as Hs1 by by rewrite Hw'.
    split_and!.
    + by rewrite Hself.
    + by rewrite Hdicts, Hw'.
    + exists (calls_of c w ++ es). split_and!.
      * rewrite Htr, Hw'. cbn [logged trace]. by rewrite app_assoc.
      * unfold requests_of in *. rewrite omap_app, length_app, Hrs.
        simpl. lia.
      * unfold requests_of in *. rewrite omap_app, Hrs.
        apply Forall_app. split; [done|].
        eapply Forall_impl; [exact Hcl|].
        intros r Hr. eapply clients_same; [|exact Hr]. done.
Qed.

End Traffic.

(* ===================================================================== *)
(** ** Bodies that are not an array of good elements *)
(* ===================================================================== *)

Section Bodies.
Context {E : Env} {MD : Models}.

(** The comprehension stops at the first element whose constructor
    raises, and raises what the constructor raised. *)
Lemma mapM_Raise {A} (f : value -> result A) xs x ys e :
  Forall (fun y => exists t, f y = Ok t) xs ->
  f x = Raise e ->
  mapM f (xs ++ x :: ys) = Raise e.
Proof.
  intros Hxs Hx. induction Hxs as [|y xs [t Hy] _ IH].
  - by rewrite app_nil_l, mapM_cons, Hx.
  - rewrite <- app_comm_cons, mapM_cons, Hy. simpl. by rewrite IH.
Qed.

(** X7.  [get_treatments], [get_activities] and [get_heartrate] return
    all the records or none.  Let the body of the response be non-empty
    and decode to an array.  If the constructor raises [e] on an element
    and succeeds on the elements before it, the method raises [e]: the
    records built so far are dropped and the elements after it are not
    looked at.  And when the method does return a list, the list has one
    record per element of the array. *)
Theorem fetch_is_all_or_nothing
    (w : World) (params : option ref) (h : gmap str str) (r : Response)
    (zs : list value) :
  let get path f :=
    mkRequest GET (site_url (self w) ++ lit path) h
              (Some (dicts w (bound f params))) None in
  fst (request_headers w) = Ok h ->
  (0 < length (content r))%nat ->
  json_loads (content r) = Ok (VList zs) ->
  (send (trace w) (get "/api/v1/treatments.json" Ftreatments) = Ok r ->
   (forall xs x ys e,
      zs = xs ++ x :: ys ->
      Forall (fun y => exists t, Treatment_new_from_json_dict y = Ok t) xs ->
      Treatment_new_from_json_dict x = Raise e ->
      fst (get_treatments params w) = Raise e)
   /\ (forall ts, fst (get_treatments params w) = Ok ts ->
                  length ts = length zs))
  /\ (send (trace w) (get "/api/v1/activity.json" Factivities) = Ok r ->
      (forall xs x ys e,
         zs = xs ++ x :: ys ->
         Forall (fun y => exists t, Activity_new_from_json_dict y = Ok t) xs ->
         Activity_new_from_json_dict x = Raise e ->
         fst (get_activities params w) = Raise e)
      /\ (forall ts, fst (get_activities params w) = Ok ts ->
                     length ts = length zs))
  /\ (send (trace w) (get "/api/v1/activity.json" Fheartrate) = Ok r ->
      (forall xs x ys e,
         zs = xs ++ x :: ys ->
         Forall (fun y => exists t, Treatment_new_from_json_dict y = Ok t) xs ->
         Treatment_new_from_json_dict x = Raise e ->
         fst (get_heartrate params w) = Raise e)
      /\ (forall ts, fst (get_heartrate params w) = Ok ts ->
                     length ts = length zs)).
Proof.
  intros get Hh Hn%nonempty_test Hzs.
  rewrite get_treatments_run, get_activities_run, get_heartrate_run, Hh.
  cbv zeta. unfold get_request.
  fold (get "/api/v1/treatments.json" Ftreatments).
  fold (get "/api/v1/activity.json" Factivities).
  fold (get "/api/v1/activity.json" Fheartrate).
  split_and!; intros ->; rewrite Hn, Hzs; cbn [fst]; simpl; split.
  - intros xs x ys e -> Hxs Hx. by apply mapM_Raise.
  - intros ts Hts. by eapply mapM_Ok_length.
  - intros xs x ys e -> Hxs Hx. by apply mapM_Raise.
  - intros ts Hts. by eapply mapM_Ok_length.
  - intros xs x ys e -> Hxs Hx. by apply mapM_Raise.
  - intros ts Hts. by eapply mapM_Ok_length.
Qed.

(** X8.  The four methods that return a list iterate over whatever the
    body decodes to.  If that is [None], a [bool] or a number, the method
    raises [TypeError].  If it is a JSON object, [get_treatments],
    [get_activities] and [get_heartrate] hand the constructor the keys of
    the object, as strings and in order, not the object. *)
Theorem fetch_iterates_decoded_value
    (w : World) (params : option ref) (h : gmap str str) (r : Response)
    (v : value) :
  let get path f :=
    mkRequest GET (site_url (self w) ++ lit path) h
              (Some (dicts w (bound f params))) None in
  let keys kvs := map (fun kv : str * value => VStr (fst kv)) kvs in
  fst (request_headers w) = Ok h ->
  (0 < length (content r))%nat ->
  json_loads (content r) = Ok v ->
  (is_scalar v = true ->
   (send (trace w) (get "/api/v1/entries/sgv.json" Fsgvs) = Ok r ->
    fst (get_sgvs params w) = Raise TypeError)
   /\ (send (trace w) (get "/api/v1/treatments.json" Ftreatments) = Ok r ->
       fst (get_treatments params w) = Raise TypeError)
   /\ (send (trace w) (get "/api/v1/activity.json" Factivities) = Ok r ->
       fst (get_activities params w) = Raise TypeError)
   /\ (send (trace w) (get "/api/v1/activity.json" Fheartrate) = Ok r ->
       fst (get_heartrate params w) = Raise TypeError))
  /\ (forall kvs, v = VDict kvs ->
      (send (trace w) (get "/api/v1/treatments.json" Ftreatments) = Ok r ->
       fst (get_treatments params w)
       = mapM Treatment_new_from_json_dict (keys kvs))
      /\ (send (trace w) (get "/api/v1/activity.json" Factivities) = Ok r ->
          fst (get_activities params w)
          = mapM Activity_new_from_json_dict (keys kvs))
      /\ (send (trace w) (get "/api/v1/activity.json" Fheartrate) = Ok r ->
          fst (get_heartrate params w)
          = mapM Treatment_new_from_json_dict (keys kvs))).
Proof.
  intros get keys Hh Hn%nonempty_test Hv.
  rewrite get_sgvs_run, get_treatments_run, get_activities_run,
    get_heartrate_run, Hh.
  cbv zeta. unfold get_request.
  fold (get "/api/v1/entries/sgv.json" Fsgvs).
  fold (get "/api/v1/treatments.json" Ftreatments).
  fold (get "/api/v1/activity.json" Factivities).
  fold (get "/api/v1/activity.json" Fheartrate).
  split.
  - intros Hs.
    assert (iterate v = Raise TypeError) as Hit
      by (destruct v; try discriminate Hs; reflexivity).
    split_and!; intros ->; rewrite ?Hn, Hv; cbn [fst]; simpl;
      by rewrite Hit.
  - intros kvs ->.
    split_and!; intros ->; rewrite Hn, Hv; reflexivity.
Qed.

End Bodies.

(* ===================================================================== *)
(** ** The empty secret, and the printed line *)
(* ===================================================================== *)

Section Secrets.
Context {E : Env} {MD : Models}.

Lemma request_of_same c w w' h :
  site_url (self w) = site_url (self w') -> dicts w = dicts w' ->
  request_of c w h = request_of c w' h.
Proof.
  intros Hu Hd. destruct c as [|[] params| |]; cbn [request_of];
    unfold get_request, post_request; by rewrite ?Hu, ?Hd.
Qed.

(** X9.  A client constructed with the empty secret behaves as one
    constructed with no secret: whatever method is called, in the same
    surroundings the two give the caller the same answer and make the
    same library calls (so the same request, with no [api-secret]
    header). *)
Theorem empty_secret_is_no_secret
    (c : call) (url : str) (d : ref -> dict) (t : list event) :
  let without := mkWorld (__init__ url None) d t in
  let empty := mkWorld (__init__ url (Some [])) d t in
  fst (perform c without) = fst (perform c empty)
  /\ calls_of c without = calls_of c empty
  /\ Forall (fun r => req_headers r !! lit "api-secret" = None)
            (requests_of (calls_of c empty)).
Proof.
  intros without empty.
  assert (fst (request_headers without) = fst (request_headers empty)) as Hh
    by (by rewrite !request_headers_cases).
  assert (calls_of c without = calls_of c empty
          /\ fst (perform c without) = fst (perform c empty)) as [Hcalls Hfst].
  { unfold calls_of. rewrite !perform_steps. unfold steps. rewrite Hh.
    destruct (fst (request_headers empty)) as [h|e]; [|done].
    rewrite (request_of_same c without empty h eq_refl eq_refl).
    destruct (request_of c empty h) as [req|]; [|done].
    change (trace without) with (trace empty).
    destruct (send (trace empty) req); cbn [fst snd]; unfold logged;
      subst without empty; cbn [trace]; by rewrite !drop_app_length. }
  split_and!; [done..|].
  destruct (perform_requests c empty) as (rs & -> & _ & Hall).
  eapply Forall_impl; [exact Hall|].
  intros r (Hr & _). rewrite request_headers_cases in Hr.
  injection Hr as <-. by rewrite !lookup_insert_ne.
Qed.

End Secrets.

Section PrintedLine.
Context {E : Env} {MD : Models}.

Lemma lit_inj s1 s2 : lit s1 = lit s2 -> s1 = s2.
Proof.
  unfold lit. intros H.
  rewrite <- (string_of_list_ascii_of_string s1),
    <- (string_of_list_ascii_of_string s2). f_equal.
  revert H. generalize (list_ascii_of_string s1) (list_ascii_of_string s2).
  induction l as [|a l IH]; intros [|b l']; try discriminate; [done|].
  simpl. intros [= Hab Hl]. f_equal; [|by apply IH].
  by rewrite <- (ascii_N_embedding a), <- (ascii_N_embedding b), Hab.
Qed.

Lemma str_of_int_inj a b : str_of_int a = str_of_int b -> a = b.
Proof. unfold str_of_int. intros H%lit_inj. by apply (inj pretty). Qed.

(** X10.  The line a call prints tells what happened.  If a call prints
    ['Error creating activity. Status code: '] followed by the decimal
    form of [n], then the call was [create_activity] or
    [create_heartrate], it posted one request, the response to that
    request had status [n], [n] is not 201, and the call returned
    [None]. *)
Theorem printed_line_tells_status (c : call) (w : World) (n : Z) :
  lit "Error creating activity. Status code: " ++ str_of_int n
    ∈ printed_of (calls_of c w) ->
  (c = CallCreateActivity \/ c = CallCreateHeartrate)
  /\ n <> 201%Z
  /\ fst (perform c w) = Created (Ok VNone)
  /\ exists req r,
       requests_of (calls_of c w) = [req]
       /\ req_method req = POST
       /\ send (trace w) req = Ok r
       /\ status_code r = n.
Proof.
  unfold calls_of. rewrite perform_steps. unfold steps.
  destruct (fst (request_headers w)) as [h|e0].
  2:{ cbn [snd]. rewrite drop_all. by intros ?%elem_of_nil. }
  destruct (request_of c w h) as [req|] eqn:Hreq.
  2:{ cbn [snd]. rewrite drop_all. by intros ?%elem_of_nil. }
  destruct (send (trace w) req) as [r|e0] eqn:Hsend; cbn [fst snd];
    rewrite drop_logged; [|by intros ?%elem_of_nil].
  destruct c as [|[] params| |]; try discriminate Hreq;
    cbn [respond]; unfold guarded, created;
    try destruct (0 <? length (content r))%nat;
    try destruct (status_code r =? 201)%Z eqn:Hst;
    cbn [fst snd printed_of omap]; try (by intros ?%elem_of_nil);
    intros Hin%list_elem_of_singleton;
    apply app_inv_head, str_of_int_inj in Hin; subst n;
    apply Z.eqb_neq in Hst;
    (split_and!; [auto|done|done|]);
    exists req, r; injection Hreq as <-; by split_and!.
Qed.

End PrintedLine.

(* ===================================================================== *)
(** ** Instances on the canned server *)
(* ===================================================================== *)

(** X1, an instance: the secret ["abc"] holds no surrogate, so the
    headers are built. *)
Lemma request_headers_raises_iff_abc :
  ~ exists e, fst (request_headers (Canned.world (Some (lit "abc")))) = Raise e.
Proof.
  destruct (request_headers_raises_iff (Canned.world (Some (lit "abc"))))
    as (Hiff & _).
  - intros s [= <-]. reflexivity.
  - intros (s & [= <-] & Hsur)%Hiff. vm_compute in Hsur. discriminate.
Defined.

(** X2, an instance: U+DC80 after an ASCII letter. *)
Lemma surrogate_secret_blocks_every_call_canned :
  let E := Canned.server 200 "[]" in
  let w := Canned.world (Some [0x61; 0xDC80]) in
  raised (fst (@perform E Canned.models CallCreateActivity w))
  = Some UnicodeEncodeError
  /\ snd (@perform E Canned.models CallCreateActivity w) = w
  /\ @calls_of E Canned.models CallCreateActivity w = [].
Proof.
  intros E w.
  apply (@surrogate_secret_blocks_every_call E Canned.models
           CallCreateActivity w [0x61; 0xDC80]); reflexivity.
Defined.

(** X3, an instance: the network is down while [get_profiles] runs. *)
Lemma transport_error_propagates_offline :
  let w := Canned.world None in
  let c := CallFetch Fprofiles (Some (Obj 1)) in
  raised (fst (@perform Canned.offline Canned.models c w))
  = Some (TransportError (lit "connection refused"))
  /\ decoded_of (@calls_of Canned.offline Canned.models c w) = [].
Proof.
  intros w c.
  destruct (@transport_error_propagates Canned.offline Canned.models c w
              (get_request w (lit "/api/v1/profile.json")
                 (<[lit "Accept" := lit "application/json"]>
                    (<[lit "Content-Type" := lit "application/json"]> ∅))
                 (Obj 1))
              (TransportError (lit "connection refused")))
    as (Hraised & Hcalls).
  - vm_compute. reflexivity.
  - reflexivity.
  - rewrite Hcalls. split; [exact Hraised|reflexivity].
Defined.

(** X4, an instance: a 201 with an empty body makes [create_heartrate]
    raise the decoder's exception. *)
Lemma decode_error_propagates_canned :
  let E := Canned.server 201 "" in
  raised (fst (@perform E Canned.models CallCreateHeartrate
                 (Canned.world None)))
  = Some DecodeError.
Proof.
  intros E.
  apply (@decode_error_propagates E Canned.models CallCreateHeartrate
           (Canned.world None) []).
  - vm_compute. reflexivity.
  - reflexivity.
Defined.

(** X7, an instance: the second of three elements is no object. *)
Lemma fetch_is_all_or_nothing_canned :
  let E := Canned.server 200 "[{'carbs': 15}, 5, {'insulin': 2}]" in
  fst (@get_treatments E Canned.models None (Canned.world None))
  = Raise (MappingError (lit "object")).
Proof.
  intros E.
  destruct (@fetch_is_all_or_nothing E Canned.models (Canned.world None) None
              (<[lit "Accept" := lit "application/json"]>
                 (<[lit "Content-Type" := lit "application/json"]> ∅))
              (mkResponse 200
                 (Canned.text "[{'carbs': 15}, 5, {'insulin': 2}]"))
              [VDict [(lit "carbs", VInt 15)]; VInt 5;
               VDict [(lit "insulin", VInt 2)]])
    as (Ht & _).
  - reflexivity.
  - vm_compute. lia.
  - vm_compute. reflexivity.
  - destruct (Ht eq_refl) as (Hfail & _).
    apply (Hfail [VDict [(lit "carbs", VInt 15)]] (VInt 5)
             [VDict [(lit "insulin", VInt 2)]]); [reflexivity| |reflexivity].
    constructor; [by eexists|constructor].
Defined.

(** X8, an instance: the body [null]. *)
Lemma fetch_iterates_decoded_value_null :
  let E := Canned.server 200 "null" in
  fst (@get_sgvs E Canned.models None (Canned.world None)) = Raise TypeError
  /\ fst (@get_heartrate E Canned.models None (Canned.world None))
     = Raise TypeError.
Proof.
  intros E.
  destruct (@fetch_iterates_decoded_value E Canned.models (Canned.world None)
              None
              (<[lit "Accept" := lit "application/json"]>
                 (<[lit "Content-Type" := lit "application/json"]> ∅))
              (mkResponse 200 (Canned.text "null")) VNone)
    as (Hscalar & _).
  - reflexivity.
  - vm_compute. lia.
  - vm_compute. reflexivity.
  - destruct (Hscalar eq_refl) as (Hs & _ & _ & Hh).
    split; [apply Hs|apply Hh]; reflexivity.
Defined.

(** An error object of the server: the constructor is given its keys. *)
Example get_treatments_error_object :
  fst (@get_treatments
         (Canned.server 401 "{'status': 401, 'message': 'Unauthorized'}")
         Canned.models None (Canned.world None))
  = mapM Canned.raw [VStr (lit "status"); VStr (lit "message")].
Proof. vm_compute. reflexivity. Qed.

(** X10, an instance: the line printed after a 500. *)
Lemma printed_line_tells_status_canned :
  let E := Canned.server 500 "{'status': 'error'}" in
  let w := Canned.world None in
  fst (@perform E Canned.models CallCreateHeartrate w) = Created (Ok VNone)
  /\ exists req r,
       requests_of (@calls_of E Canned.models CallCreateHeartrate w) = [req]
       /\ req_method req = POST
       /\ @send E (trace w) req = Ok r
       /\ status_code r = 500%Z.
Proof.
  intros E w.
  destruct (@printed_line_tells_status E Canned.models CallCreateHeartrate w
              500) as (_ & _ & Hret & Hreq).
  - replace (printed_of (@calls_of E Canned.models CallCreateHeartrate w))
      with [lit "Error creating activity. Status code: " ++ str_of_int 500]
      by (vm_compute; reflexivity).
    by apply list_elem_of_singleton.
  - split; [exact Hret|exact Hreq].
Defined.

(** A program of two calls sends two requests, in the order of the
    calls. *)
Example program_of_two_calls :
  let E := Canned.server 200 "[]" in
  map req_url
    (requests_of
       (trace (@perform_all E Canned.models
                 [CallFetch Fsgvs None; CallCreateActivity]
                 (Canned.world (Some (lit "abc"))))))
  = [lit "https://ns.example/api/v1/entries/sgv.json";
     lit "https://ns.example/api/v1/activity.json"].
Proof. vm_compute. reflexivity. Qed.
